(** * SCMS-Frontend: the run-lifecycle client of the supply-chain dashboard

    A shallow embedding of [src/app/page.tsx].  The repository holds two
    versions of the page component [SupplyChainDashboard]:

    - the _pull_ variant (lines 1-321), which re-reads the three read models
      with [fetchDashboardData] when the stream ends or fails;
    - the _push_ variant (lines 322-570), which asks [GET /run] for one
      combined payload from inside [runSystem].

    React state hooks become fields of a [world]; every call the component
    makes on its surroundings (state setters, [new EventSource], [close],
    [fetch], [console]) is also appended to a chronological [trace], so that
    ordering properties can be stated.  The browser's event loop is the list
    of [event]s fed to [step]: handlers run to completion, one at a time. *)

From Stdlib Require Import List String Ascii ZArith Bool Arith Lia.
Import ListNotations.
Open Scope string_scope.
Open Scope list_scope.

(** ** Data model (the interfaces declared at the top of the page) *)

(** [type StreamLog = { message: string; timestamp: string }] *)
Record StreamLog : Type := mkStreamLog {
  message : string;
  timestamp : string
}.

(** [number] fields are modelled as integers: the levels, thresholds and
    quantities of the data model are integer counts. *)
Module InventoryItem.
Record t : Type := mk {
  item_id : string;
  name : string;
  stock_level : Z;
  reorder_threshold : Z;
  supplier : string;
  last_updated : string
}.
End InventoryItem.

Module PurchaseOrder.
Record t : Type := mk {
  order_id : string;
  item_id : string;
  quantity : Z;
  supplier : string;
  order_date : string;
  status : string;
  item_name : string
}.
End PurchaseOrder.

Module RestockPlan.
Record t : Type := mk {
  order_id : string;
  item_id : string;
  supplier : string;
  logistics_partner : string;
  estimated_arrival : string;
  delivery_method : string
}.
End RestockPlan.

Module SLAViolation.
Record t : Type := mk {
  order_id : string;
  supplier : string;
  reason : string;
  reported_on : string
}.
End SLAViolation.

Module Metric.
Record t : Type := mk {
  name : string;
  value : Z;
  unit : string;
  description : string
}.
End Metric.

(** ** [String.prototype.trim]

    Strings are sequences of code units in the range U+0000..U+00FF; the
    white space and line terminators of that range are TAB, LF, VT, FF, CR,
    SPACE and NO-BREAK SPACE. *)

Definition isWhiteSpace (c : ascii) : bool :=
  let n := nat_of_ascii c in
  ((n =? 9) || (n =? 10) || (n =? 11) || (n =? 12) || (n =? 13)
   || (n =? 32) || (n =? 160))%nat.

Fixpoint trimStart (s : string) : string :=
  match s with
  | EmptyString => EmptyString
  | String c s' => if isWhiteSpace c then trimStart s' else s
  end.

Fixpoint trimEnd (s : string) : string :=
  match s with
  | EmptyString => EmptyString
  | String c s' =>
      match trimEnd s' with
      | EmptyString => if isWhiteSpace c then EmptyString else String c EmptyString
      | rest => String c rest
      end
  end.

Definition trim (s : string) : string := trimEnd (trimStart s).

(** ** The component's surroundings *)

(** What the component does to its surroundings, in call order. *)
Inductive effect : Type :=
| SetIsRunning (b : bool)               (* setIsRunning(b) *)
| SetActivityLogs                       (* setActivityLogs(...) *)
| SetReadModel (hook : string)          (* setInventory(...), setMetrics(...), ... *)
| NewEventSource (c : nat) (url : string)
| CloseEventSource (c : nat)            (* eventSource.close() *)
| Fetch (url : string)                  (* fetch(url) *)
| ConsoleError (msg : string)
| ConsoleLog (msg : string).

Section Session.
(** The read-model hooks differ between the two variants; the log buffer,
    the running flag and the runtime are the same. *)
Variable Store : Type.

Record world : Type := mkWorld {
  store : Store;                      (* the read-model hooks *)
  activityLogs : list StreamLog;      (* useState<StreamLog[]>([]) *)
  isRunning : bool;                   (* useState(false) *)
  open_sources : list nat;            (* EventSource objects not yet closed *)
  next_source : nat;                  (* identity of the next EventSource *)
  inflight : nat;                     (* async calls suspended at an await *)
  trace : list effect
}.

Definition emit (e : effect) (w : world) : world :=
  mkWorld (store w) (activityLogs w) (isRunning w) (open_sources w)
          (next_source w) (inflight w) (trace w ++ [e]).

Definition setIsRunning (b : bool) (w : world) : world :=
  emit (SetIsRunning b)
    (mkWorld (store w) (activityLogs w) b (open_sources w)
             (next_source w) (inflight w) (trace w)).

(** Both forms of the setter: [setActivityLogs(v)] is the updater
    [fun _ => v]. *)
Definition setActivityLogs (f : list StreamLog -> list StreamLog) (w : world) : world :=
  emit SetActivityLogs
    (mkWorld (store w) (f (activityLogs w)) (isRunning w) (open_sources w)
             (next_source w) (inflight w) (trace w)).

Definition setStore (hook : string) (f : Store -> Store) (w : world) : world :=
  emit (SetReadModel hook)
    (mkWorld (f (store w)) (activityLogs w) (isRunning w) (open_sources w)
             (next_source w) (inflight w) (trace w)).

(** [new EventSource(url)]: a fresh object, open from now on. *)
Definition newEventSource (url : string) (w : world) : world :=
  emit (NewEventSource (next_source w) url)
    (mkWorld (store w) (activityLogs w) (isRunning w)
             (next_source w :: open_sources w)
             (S (next_source w)) (inflight w) (trace w)).

(** [eventSource.close()] *)
Definition close (eventSource : nat) (w : world) : world :=
  emit (CloseEventSource eventSource)
    (mkWorld (store w) (activityLogs w) (isRunning w)
             (remove Nat.eq_dec eventSource (open_sources w))
             (next_source w) (inflight w) (trace w)).

Definition fetch (url : string) (w : world) : world := emit (Fetch url) w.

Definition consoleError (msg : string) (w : world) : world := emit (ConsoleError msg) w.

Definition consoleLog (msg : string) (w : world) : world := emit (ConsoleLog msg) w.

(** An async function reaches its first [await] and returns to the event
    loop; later the loop resumes it. *)
Definition suspend (w : world) : world :=
  mkWorld (store w) (activityLogs w) (isRunning w) (open_sources w)
          (next_source w) (S (inflight w)) (trace w).

Definition resume (w : world) : world :=
  mkWorld (store w) (activityLogs w) (isRunning w) (open_sources w)
          (next_source w) (pred (inflight w)) (trace w).

Definition isOpen (c : nat) (w : world) : bool :=
  existsb (Nat.eqb c) (open_sources w).

(** A closed EventSource dispatches nothing. *)
Definition dispatch (c : nat) (handler : world -> world) (w : world) : world :=
  if isOpen c w then handler w else w.

(** [eventSource.onmessage] (the same in both variants):
    [setActivityLogs((prev) => [...prev, {message: event.data.trim(),
    timestamp: new Date().toLocaleTimeString()}])].  The clock reading
    [now] is supplied with the event. *)
Definition onmessage (data now : string) (w : world) : world :=
  setActivityLogs (fun prev => prev ++ [mkStreamLog (trim data) now]) w.

(** [<Button onClick={handler} disabled={isRunning}>]: a disabled button
    does not fire its handler. *)
Definition button (handler : world -> world) (w : world) : world :=
  if isRunning w then w else handler w.
End Session.

Arguments mkWorld {Store}.
Arguments store {Store}.
Arguments activityLogs {Store}.
Arguments isRunning {Store}.
Arguments open_sources {Store}.
Arguments next_source {Store}.
Arguments inflight {Store}.
Arguments trace {Store}.
Arguments emit {Store}.
Arguments setIsRunning {Store}.
Arguments setActivityLogs {Store}.
Arguments setStore {Store}.
Arguments newEventSource {Store}.
Arguments close {Store}.
Arguments fetch {Store}.
Arguments consoleError {Store}.
Arguments consoleLog {Store}.
Arguments suspend {Store}.
Arguments resume {Store}.
Arguments isOpen {Store}.
Arguments dispatch {Store}.
Arguments onmessage {Store}.
Arguments button {Store}.

(** [Promise.all] of three promises: resolves with all three values, rejects
    as soon as one rejects. *)
Definition promiseAll3 {A B C : Type} (a : option A) (b : option B) (c : option C)
  : option (A * B * C) :=
  match a, b, c with
  | Some x, Some y, Some z => Some (x, y, z)
  | _, _, _ => None
  end.

(** ** What the component renders

    The parts of the returned JSX that depend on the state; the fixed markup
    around them is left out. *)

(** [<Badge className=...>text</Badge>]; [None] when no [className] is
    given. *)
Record Badge : Type := mkBadge {
  badgeClass : option string;
  badgeText : string
}.

(** [getStatusBadge] (the same in both variants) *)
Definition getStatusBadge (status : string) : Badge :=
  if String.eqb status "pending" then
    mkBadge (Some "bg-yellow-100 text-yellow-800 border-yellow-200") "Pending"
  else if String.eqb status "fulfilled" then
    mkBadge (Some "bg-green-100 text-green-800 border-green-200") "Fulfilled"
  else if String.eqb status "cancelled" then
    mkBadge (Some "bg-red-100 text-red-800 border-red-200") "Cancelled"
  else
    mkBadge None status.

(** The Run button: [disabled={isRunning}] and its caption. *)
Record RunButton : Type := mkRunButton {
  disabled : bool;
  caption : string
}.

Definition runButton {Store : Type} (w : world Store) : RunButton :=
  mkRunButton (isRunning w)
              (if isRunning w then "Running..." else "Run Supply Chain System").

(** One [<p key={i}>] of the log card: [[timestamp] message]. *)
Record LogLine : Type := mkLogLine {
  lineKey : nat;
  lineStamp : string;
  lineText : string
}.

(** The log card: the placeholder paragraph, or one line per entry. *)
Inductive LogsPanel : Type :=
| NoLogsYet
| LogLines (lines : list LogLine).

(** [array.map((x, i) => f(x, i))], counting from [i]. *)
Fixpoint mapi_from {A B : Type} (i : nat) (f : A -> nat -> B) (l : list A) : list B :=
  match l with
  | [] => []
  | x :: rest => f x i :: mapi_from (S i) f rest
  end.

Definition logsPanel (logs : list StreamLog) : LogsPanel :=
  match List.length logs with
  | O => NoLogsYet
  | S _ => LogLines (mapi_from 0 (fun log i => mkLogLine i (timestamp log) (message log)) logs)
  end.

(** One [<TableRow>] of the inventory table. *)
Record InventoryRow : Type := mkInventoryRow {
  inventoryKey : string;
  inventoryClass : string;
  inventoryName : string;
  lowStockBadge : bool;
  stockCell : Z;
  thresholdCell : Z;
  inventorySupplier : string;
  inventoryUpdated : string
}.

Definition inventoryRow (item : InventoryItem.t) : InventoryRow :=
  mkInventoryRow
    (InventoryItem.item_id item)
    (if (InventoryItem.stock_level item <? InventoryItem.reorder_threshold item)%Z
     then "bg-red-50" else "")
    (InventoryItem.name item)
    (InventoryItem.stock_level item <? InventoryItem.reorder_threshold item)%Z
    (InventoryItem.stock_level item)
    (InventoryItem.reorder_threshold item)
    (InventoryItem.supplier item)
    (InventoryItem.last_updated item).

(** One [<TableRow>] of the purchase-order table. *)
Record OrderRow : Type := mkOrderRow {
  orderKey : string;
  orderId : string;
  orderItem : string;
  orderQty : Z;
  orderSupplier : string;
  orderDate : string;
  orderStatus : Badge
}.

Definition orderRow (order : PurchaseOrder.t) : OrderRow :=
  mkOrderRow
    (PurchaseOrder.order_id order)
    (PurchaseOrder.order_id order)
    (PurchaseOrder.item_name order)
    (PurchaseOrder.quantity order)
    (PurchaseOrder.supplier order)
    (PurchaseOrder.order_date order)
    (getStatusBadge (PurchaseOrder.status order)).

(** One [<TableRow>] of the SLA-violation table. *)
Record SlaRow : Type := mkSlaRow {
  slaKey : string;
  slaOrder : string;
  slaReportedOn : string;
  slaSupplier : string;
  slaReason : string
}.

Definition slaRow (v : SLAViolation.t) : SlaRow :=
  mkSlaRow
    (SLAViolation.order_id v)
    (SLAViolation.order_id v)
    (SLAViolation.reported_on v)
    (SLAViolation.supplier v)
    (SLAViolation.reason v).

(** [{slaViolations.length > 0 && (<Card>...</Card>)}] *)
Definition slaCard (violations : list SLAViolation.t) : option (list SlaRow) :=
  match List.length violations with
  | O => None
  | S _ => Some (map slaRow violations)
  end.

(** ** The pull variant (page.tsx, lines 1-321) *)
Module Pull.

Record Store : Type := mkStore {
  inventory : list InventoryItem.t;
  purchaseOrders : list PurchaseOrder.t;
  slaViolations : list SLAViolation.t
}.

Definition world : Type := world Store.

(** The decoded body of a read-model GET: an array of items, or one of the
    falsy JSON values. *)
Inductive body (A : Type) : Type :=
| JNull
| JFalse
| JZero
| JEmptyString
| JArray (items : list A).
Arguments JNull {A}.
Arguments JFalse {A}.
Arguments JZero {A}.
Arguments JEmptyString {A}.
Arguments JArray {A}.

(** How one [fetch(url)] ends: the promise rejects (network failure), or
    resolves with a response whose status the code never inspects and
    whose [json()] either rejects ([None]) or yields a decoded body. *)
Inductive response (A : Type) : Type :=
| NetworkError
| Response (status : nat) (json : option (body A)).
Arguments NetworkError {A}.
Arguments Response {A}.

Definition resolved {A} (r : response A) : option (option (body A)) :=
  match r with
  | NetworkError => None
  | Response _ j => Some j
  end.

(** [data || []] *)
Definition orEmpty {A} (data : body A) : list A :=
  match data with
  | JArray items => items
  | JNull | JFalse | JZero | JEmptyString => []
  end.

Definition setInventory (v : list InventoryItem.t) : world -> world :=
  setStore "inventory" (fun s => mkStore v (purchaseOrders s) (slaViolations s)).

Definition setPurchaseOrders (v : list PurchaseOrder.t) : world -> world :=
  setStore "purchaseOrders" (fun s => mkStore (inventory s) v (slaViolations s)).

Definition setSlaViolations (v : list SLAViolation.t) : world -> world :=
  setStore "slaViolations" (fun s => mkStore (inventory s) (purchaseOrders s) v).

(** [fetchDashboardData], up to its first [await]: the three requests are
    issued together. *)
Definition fetchDashboardData (w : world) : world :=
  let w := fetch "http://localhost:8000/inventory" w in
  let w := fetch "http://localhost:8000/purchase-orders" w in
  let w := fetch "http://localhost:8000/sla-violations" w in
  suspend w.

(** The rest of [fetchDashboardData], once the three requests have ended.
    Nothing of the component is read or written between the two awaits, so
    they are resumed in one step. *)
Definition fetchDashboardData_resume
    (r1 : response InventoryItem.t) (r2 : response PurchaseOrder.t)
    (r3 : response SLAViolation.t) (w : world) : world :=
  let w := resume w in
  match promiseAll3 (resolved r1) (resolved r2) (resolved r3) with
  | None => consoleError "Failed to load dashboard data:" w
  | Some (inventoryRes, purchaseOrdersRes, slaViolationsRes) =>
      match promiseAll3 inventoryRes purchaseOrdersRes slaViolationsRes with
      | None => consoleError "Failed to load dashboard data:" w
      | Some (inventoryData, purchaseOrderData, slaData) =>
          let w := setInventory (orEmpty inventoryData) w in
          let w := setPurchaseOrders (orEmpty purchaseOrderData) w in
          setSlaViolations (orEmpty slaData) w
      end
  end.

(** [runSystem]: the handlers it installs on the new EventSource are
    [onmessage], [onerror], [onopen] and [onend] below. *)
Definition runSystem (w : world) : world :=
  let w := setIsRunning true w in
  let w := setActivityLogs (fun _ => []) w in
  newEventSource "http://localhost:8000/run-full-stream" w.

Definition onerror (eventSource : nat) (w : world) : world :=
  let w := consoleError "Stream error occurred" w in
  let w := close eventSource w in
  let w := setIsRunning false w in
  fetchDashboardData w.

Definition onopen (w : world) : world := consoleLog "Streaming started" w.

(** [eventSource.addEventListener("end", ...)] *)
Definition onend (eventSource : nat) (w : world) : world :=
  let w := close eventSource w in
  let w := setIsRunning false w in
  fetchDashboardData w.

(** Derived values, recomputed by every render. *)
Definition isLowStock (item : InventoryItem.t) : bool :=
  (InventoryItem.stock_level item <? InventoryItem.reorder_threshold item)%Z.

Definition totalPurchaseOrders (w : world) : nat := List.length (purchaseOrders (store w)).
Definition slaViolationsCount (w : world) : nat := List.length (slaViolations (store w)).
Definition lowStockItems (w : world) : list InventoryItem.t :=
  filter isLowStock (inventory (store w)).

(** What the event loop can deliver to the mounted component. *)
Inductive event : Type :=
| Click                                          (* the Run button *)
| StreamOpen (c : nat)
| StreamMessage (c : nat) (data now : string)    (* an unnamed event *)
| StreamNamed (c : nat) (type : string)          (* an event of a type other than message *)
| StreamError (c : nat)
| DashboardResponses (r1 : response InventoryItem.t)
                     (r2 : response PurchaseOrder.t)
                     (r3 : response SLAViolation.t).

Definition step (w : world) (e : event) : world :=
  match e with
  | Click => button runSystem w
  | StreamOpen c => dispatch c onopen w
  | StreamMessage c data now => dispatch c (onmessage data now) w
  | StreamNamed c type =>
      if String.eqb type "end" then dispatch c (onend c) w else w
  | StreamError c => dispatch c (onerror c) w
  | DashboardResponses r1 r2 r3 =>
      match inflight w with
      | O => w
      | S _ => fetchDashboardData_resume r1 r2 r3 w
      end
  end.

Definition run (evs : list event) (w : world) : world := fold_left step evs w.

Definition unmounted : world :=
  mkWorld (mkStore [] [] []) [] false [] 0 0 [].

(** [useEffect(() => { fetchDashboardData() }, [])] *)
Definition init : world := fetchDashboardData unmounted.

(** The returned JSX of the pull variant. *)
Record View : Type := mkView {
  viewButton : RunButton;
  cardTotalPurchaseOrders : nat;
  cardSlaViolations : nat;
  cardAverageLeadTime : string;
  cardLowStockItems : nat;
  viewLogs : LogsPanel;
  viewInventory : list InventoryRow;
  viewOrders : list OrderRow;
  viewSla : option (list SlaRow)
}.

Definition averageLeadTime : string := "3.4 days".

Definition render (w : world) : View :=
  mkView (runButton w)
         (totalPurchaseOrders w)
         (slaViolationsCount w)
         averageLeadTime
         (List.length (lowStockItems w))
         (logsPanel (activityLogs w))
         (map inventoryRow (inventory (store w)))
         (map orderRow (purchaseOrders (store w)))
         (slaCard (slaViolations (store w))).

(** Sorting the events. *)
Definition isClick (e : event) : bool :=
  match e with
  | Click => true
  | _ => false
  end.

Definition isResponse (e : event) : bool :=
  match e with
  | DashboardResponses _ _ _ => true
  | _ => false
  end.

(** The events that can end a run: a stream error, or the end event. *)
Definition isTerminal (e : event) : bool :=
  match e with
  | StreamError _ => true
  | StreamNamed _ type => String.eqb type "end"
  | _ => false
  end.

(** The EventSource a stream event comes from. *)
Definition source (e : event) : option nat :=
  match e with
  | StreamOpen c | StreamMessage c _ _ | StreamNamed c _ | StreamError c => Some c
  | Click | DashboardResponses _ _ _ => None
  end.

End Pull.

(** ** The push variant (page.tsx, lines 322-570) *)
Module Push.

(** A read-model hook holds an array or, once a setter has been given a
    missing field, [undefined] ([None]). *)
Record Store : Type := mkStore {
  inventory : option (list InventoryItem.t);
  purchaseOrders : option (list PurchaseOrder.t);
  restockPlan : option (list RestockPlan.t);
  slaViolations : option (list SLAViolation.t);
  metrics : option (list Metric.t)
}.

Definition world : Type := world Store.

(** The object [GET /run] answers with; a field that is absent reads as
    [undefined] ([None]). *)
Module Payload.
Record t : Type := mk {
  inventory_data : option (list InventoryItem.t);
  purchase_orders : option (list PurchaseOrder.t);
  restock_plan : option (list RestockPlan.t);
  sla_violations : option (list SLAViolation.t);
  metrics : option (list Metric.t)
}.
End Payload.

(** The decoded body of [GET /run]. *)
Inductive json : Type :=
| JNull
| JScalar                       (* a boolean, a number or a string *)
| JObject (fields : Payload.t).

Inductive response : Type :=
| NetworkError
| Response (status : nat) (body : option json).

(** Reading [data.inventory_data], ..., [data.metrics]: a TypeError on
    [null] ([None]), [undefined] for every property of a scalar. *)
Definition properties (data : json) : option Payload.t :=
  match data with
  | JNull => None
  | JScalar => Some (Payload.mk None None None None None)
  | JObject fields => Some fields
  end.

Definition setInventory (v : option (list InventoryItem.t)) : world -> world :=
  setStore "inventory"
    (fun s => mkStore v (purchaseOrders s) (restockPlan s) (slaViolations s) (metrics s)).

Definition setPurchaseOrders (v : option (list PurchaseOrder.t)) : world -> world :=
  setStore "purchaseOrders"
    (fun s => mkStore (inventory s) v (restockPlan s) (slaViolations s) (metrics s)).

Definition setRestockPlan (v : option (list RestockPlan.t)) : world -> world :=
  setStore "restockPlan"
    (fun s => mkStore (inventory s) (purchaseOrders s) v (slaViolations s) (metrics s)).

Definition setSlaViolations (v : option (list SLAViolation.t)) : world -> world :=
  setStore "slaViolations"
    (fun s => mkStore (inventory s) (purchaseOrders s) (restockPlan s) v (metrics s)).

Definition setMetrics (v : option (list Metric.t)) : world -> world :=
  setStore "metrics"
    (fun s => mkStore (inventory s) (purchaseOrders s) (restockPlan s) (slaViolations s) v).

(** [runSystem], up to [await fetch(".../run")]; the handlers it installs
    on the new EventSource are [onmessage] and [onerror]. *)
Definition runSystem (w : world) : world :=
  let w := setIsRunning true w in
  let w := setActivityLogs (fun _ => []) w in
  let w := newEventSource "http://localhost:8000/run-full-stream" w in
  let w := fetch "http://localhost:8000/run" w in
  suspend w.

(** The five setters that close [runSystem]. *)
Definition replaceAll (data : Payload.t) (w : world) : world :=
  let w := setInventory (Payload.inventory_data data) w in
  let w := setPurchaseOrders (Payload.purchase_orders data) w in
  let w := setRestockPlan (Payload.restock_plan data) w in
  let w := setSlaViolations (Payload.sla_violations data) w in
  setMetrics (Payload.metrics data) w.

(** The rest of [runSystem] once [GET /run] has ended.  A rejected [fetch],
    a rejected [res.json()] and the TypeError on [null] all reject the
    promise [runSystem] returned, which nobody observes. *)
Definition runSystem_resume (r : response) (w : world) : world :=
  let w := resume w in
  match r with
  | NetworkError => w
  | Response _ None => w
  | Response _ (Some data) =>
      match properties data with
      | None => w
      | Some fields => replaceAll fields w
      end
  end.

Definition onerror (eventSource : nat) (w : world) : world :=
  let w := close eventSource w in
  setIsRunning false w.

Inductive event : Type :=
| Click
| StreamOpen (c : nat)
| StreamMessage (c : nat) (data now : string)
| StreamNamed (c : nat) (type : string)
| StreamError (c : nat)
| RunResponse (r : response).

(** No [onopen] handler and no listener for any named event is installed. *)
Definition step (w : world) (e : event) : world :=
  match e with
  | Click => button runSystem w
  | StreamOpen c => w
  | StreamMessage c data now => dispatch c (onmessage data now) w
  | StreamNamed c type => w
  | StreamError c => dispatch c (onerror c) w
  | RunResponse r =>
      match inflight w with
      | O => w
      | S _ => runSystem_resume r w
      end
  end.

Definition run (evs : list event) (w : world) : world := fold_left step evs w.

Definition init : world :=
  mkWorld (mkStore (Some []) (Some []) (Some []) (Some []) (Some [])) [] false [] 0 0 [].

(** The returned JSX of the push variant; it shows neither [restockPlan]
    nor [metrics].  [inventory.map], [purchaseOrders.map] and
    [slaViolations.length] throw a TypeError on [undefined] ([None]). *)
Record View : Type := mkView {
  viewButton : RunButton;
  viewLogs : LogsPanel;
  viewInventory : list InventoryRow;
  viewOrders : list OrderRow;
  viewSla : option (list SlaRow)
}.

Definition render (w : world) : option View :=
  match inventory (store w), purchaseOrders (store w), slaViolations (store w) with
  | Some items, Some orders, Some violations =>
      Some (mkView (runButton w)
                   (logsPanel (activityLogs w))
                   (map inventoryRow items)
                   (map orderRow orders)
                   (slaCard violations))
  | _, _, _ => None
  end.

(** Sorting the events. *)
Definition isClick (e : event) : bool :=
  match e with
  | Click => true
  | _ => false
  end.

Definition isResponse (e : event) : bool :=
  match e with
  | RunResponse _ => true
  | _ => false
  end.

Definition isError (e : event) : bool :=
  match e with
  | StreamError _ => true
  | _ => false
  end.

Definition source (e : event) : option nat :=
  match e with
  | StreamOpen c | StreamMessage c _ _ | StreamNamed c _ | StreamError c => Some c
  | Click | RunResponse _ => None
  end.

(** A [/run] answer that carries the three fields the page shows. *)
Definition showable (e : event) : bool :=
  match e with
  | RunResponse (Response _ (Some JScalar)) => false
  | RunResponse (Response _ (Some (JObject fields))) =>
      match Payload.inventory_data fields, Payload.purchase_orders fields,
            Payload.sla_violations fields with
      | Some _, Some _, Some _ => true
      | _, _, _ => false
      end
  | _ => true
  end.

End Push.

(** ** Reading a trace *)

(** The sources that are open and the value last given to [setIsRunning],
    after one more call. *)
Definition replay_effect (s : list nat * bool) (e : effect) : list nat * bool :=
  match e with
  | NewEventSource c _ => (c :: fst s, snd s)
  | CloseEventSource c => (remove Nat.eq_dec c (fst s), snd s)
  | SetIsRunning b => (fst s, b)
  | _ => s
  end.

Definition replay (t : list effect) : list nat * bool :=
  fold_left replay_effect t ([], false).

(** No run is in progress: no stream is open and the flag is down. *)
Definition settled (s : list nat * bool) : bool :=
  match s with
  | ([], false) => true
  | _ => false
  end.

Definition isFetch (e : effect) : bool :=
  match e with
  | Fetch _ => true
  | _ => false
  end.

(** Every request of the trace is issued while no run is in progress. *)
Fixpoint fetches_settled_from (s : list nat * bool) (t : list effect) : bool :=
  match t with
  | [] => true
  | e :: t' =>
      (if isFetch e then settled s else true)
      && fetches_settled_from (replay_effect s e) t'
  end.

Definition fetches_settled (t : list effect) : bool :=
  fetches_settled_from ([], false) t.

(** Calls that belong to a reconciliation: a request, or a read-model
    setter. *)
Definition isReconcile (e : effect) : bool :=
  match e with
  | Fetch _ | SetReadModel _ => true
  | _ => false
  end.

Definition reconcileCalls (t : list effect) : nat :=
  List.length (filter isReconcile t).

Definition requests (url : string) (t : list effect) : nat :=
  List.length (filter (fun e => match e with Fetch u => String.eqb u url | _ => false end) t).

Definition consoleErrors (t : list effect) : nat :=
  List.length (filter (fun e => match e with ConsoleError _ => true | _ => false end) t).

(** ** Vocabulary of the properties *)

(** The entry [onmessage] builds from an event's payload and the clock. *)
Definition logEntry (m : string * string) : StreamLog :=
  mkStreamLog (trim (fst m)) (snd m).

(** The low-stock count as the data model words it: the number of items
    whose [stock_level] is below their [reorder_threshold]. *)
Fixpoint countLowStock (items : list InventoryItem.t) : nat :=
  match items with
  | [] => 0
  | item :: rest =>
      if Z_lt_dec (InventoryItem.stock_level item) (InventoryItem.reorder_threshold item)
      then S (countLowStock rest)
      else countLowStock rest
  end.

(** A GET has failed for [fetchDashboardData] when one of its two promises
    rejects: [fetch] itself, or [json()] on its response. *)
Definition rejected {A : Type} (r : Pull.response A) : bool :=
  match r with
  | Pull.NetworkError => true
  | Pull.Response _ None => true
  | Pull.Response _ (Some _) => false
  end.

Definition failures {A B C : Type}
    (r1 : Pull.response A) (r2 : Pull.response B) (r3 : Pull.response C) : nat :=
  (if rejected r1 then 1 else 0) + (if rejected r2 then 1 else 0)
  + (if rejected r3 then 1 else 0).

Definition isFalsy {A : Type} (data : Pull.body A) : bool :=
  match data with
  | Pull.JArray _ => false
  | _ => true
  end.

(** What ties the runtime to the running flag: while the flag is up exactly
    the newest EventSource is open, otherwise none is; and the trace tells
    the same story. *)
Definition consistent {Store : Type} (w : world Store) : Prop :=
  open_sources w = (if isRunning w then [pred (next_source w)] else [])
  /\ replay (trace w) = (open_sources w, isRunning w).

(** Sample data. *)
Definition widget (stock threshold : Z) : InventoryItem.t :=
  InventoryItem.mk "W-1" "Widget" stock threshold "Acme" "2024-01-01".

Definition gadget (stock threshold : Z) : InventoryItem.t :=
  InventoryItem.mk "G-1" "Gadget" stock threshold "Globex" "2024-01-01".

Definition order1001 : PurchaseOrder.t :=
  PurchaseOrder.mk "PO-1001" "W-1" 50 "Acme" "2024-01-02" "pending" "Widget".

Definition lateDelivery : SLAViolation.t :=
  SLAViolation.mk "PO-0990" "Globex" "late delivery" "2024-01-01".

Definition plan1001 : RestockPlan.t :=
  RestockPlan.mk "PO-1001" "W-1" "Acme" "FastShip" "2024-01-09" "road".

(** A pull dashboard that shows an earlier snapshot and whose first run has
    just ended: the reconciliation requests of that run are in flight. *)
Definition staleDashboard : Pull.world :=
  Pull.run
    [Pull.DashboardResponses
       (Pull.Response 200 (Some (Pull.JArray [widget 5 10])))
       (Pull.Response 200 (Some (Pull.JArray [])))
       (Pull.Response 200 (Some (Pull.JArray [lateDelivery])));
     Pull.Click;
     Pull.StreamMessage 0 "Placing order PO-1001" "10:00:00";
     Pull.StreamNamed 0 "end"]
    Pull.init.

(** A push dashboard in the middle of its first run. *)
Definition runningPush : Push.world := Push.run [Push.Click] Push.init.

(** A [/run] answer that lacks [metrics]. *)
Definition payloadWithoutMetrics : Push.Payload.t :=
  Push.Payload.mk (Some [widget 60 10]) (Some [order1001]) (Some [plan1001])
                  (Some []) None.

(** Counting calls in a trace. *)
Definition sets (hook : string) (t : list effect) : nat :=
  List.length
    (filter (fun e => match e with SetReadModel h => String.eqb h hook | _ => false end) t).

Definition loadFailures (t : list effect) : nat :=
  List.length
    (filter (fun e => match e with
                      | ConsoleError msg => String.eqb msg "Failed to load dashboard data:"
                      | _ => false
                      end) t).

Definition opened (t : list effect) : nat :=
  List.length (filter (fun e => match e with NewEventSource _ _ => true | _ => false end) t).

Definition closed (t : list effect) : nat :=
  List.length (filter (fun e => match e with CloseEventSource _ => true | _ => false end) t).

(** A payload made of white space only. *)
Fixpoint allWhiteSpace (s : string) : bool :=
  match s with
  | EmptyString => true
  | String c s' => isWhiteSpace c && allWhiteSpace s'
  end.

(** Nothing to strip at the front. *)
Definition startsClean (s : string) : bool :=
  match s with
  | EmptyString => true
  | String c _ => negb (isWhiteSpace c)
  end.

(** A purchase order in a state the page has no colour for. *)
Definition order1002 : PurchaseOrder.t :=
  PurchaseOrder.mk "PO-1002" "G-1" 5 "Globex" "2024-01-03" "Pending" "Gadget".

(** The books of the pull variant: every [fetchDashboardData] call is
    still in flight, or has set the three read models, or has logged its
    failure; the three requests and the three setters go together; one call
    was made on mount and one per closed stream; and every EventSource ever
    created is closed or still open. *)
Definition pull_books (w : Pull.world) : Prop :=
  let t := trace w in
  requests "http://localhost:8000/inventory" t
  = inflight w + sets "inventory" t + loadFailures t
  /\ requests "http://localhost:8000/purchase-orders" t
     = requests "http://localhost:8000/inventory" t
  /\ requests "http://localhost:8000/sla-violations" t
     = requests "http://localhost:8000/inventory" t
  /\ sets "purchaseOrders" t = sets "inventory" t
  /\ sets "slaViolations" t = sets "inventory" t
  /\ requests "http://localhost:8000/inventory" t = S (closed t)
  /\ opened t = closed t + List.length (open_sources w)
  /\ next_source w = opened t.

(** The books of the push variant: one [GET /run] per EventSource created;
    an answer sets all five read models or none; and every EventSource ever
    created is closed or still open. *)
Definition push_books (w : Push.world) : Prop :=
  let t := trace w in
  requests "http://localhost:8000/run" t = opened t
  /\ inflight w + sets "inventory" t <= requests "http://localhost:8000/run" t
  /\ sets "purchaseOrders" t = sets "inventory" t
  /\ sets "restockPlan" t = sets "inventory" t
  /\ sets "slaViolations" t = sets "inventory" t
  /\ sets "metrics" t = sets "inventory" t
  /\ opened t = closed t + List.length (open_sources w)
  /\ next_source w = opened t.

(** ** Basic facts *)

Lemma remove_single (c : nat) : remove Nat.eq_dec c [c] = [].
Proof.
  simpl. destruct (Nat.eq_dec c c) as [_ | n]; [reflexivity | contradiction].
Qed.

Lemma replay_snoc (t : list effect) (e : effect) :
  replay (t ++ [e]) = replay_effect (replay t) e.
Proof. unfold replay. rewrite fold_left_app. reflexivity. Qed.

Lemma fetches_settled_from_snoc (t : list effect) :
  forall (s : list nat * bool) (e : effect),
    fetches_settled_from s (t ++ [e]) =
    fetches_settled_from s t
    && (if isFetch e then settled (fold_left replay_effect t s) else true).
Proof.
  induction t as [| a t IH]; intros s e; simpl.
  - now rewrite andb_true_r.
  - rewrite IH. now rewrite andb_assoc.
Qed.

Lemma fetches_settled_snoc (t : list effect) (e : effect) :
  fetches_settled (t ++ [e]) =
  fetches_settled t && (if isFetch e then settled (replay t) else true).
Proof. apply fetches_settled_from_snoc. Qed.

Lemma isOpen_In {Store : Type} (c : nat) (w : world Store) :
  isOpen c w = true <-> In c (open_sources w).
Proof.
  unfold isOpen. rewrite existsb_exists. split.
  - intros [x [Hin Heq]]. apply Nat.eqb_eq in Heq. now subst.
  - intros Hin. exists c. split; [assumption | apply Nat.eqb_refl].
Qed.

Lemma consistent_open {Store : Type} (c : nat) (w : world Store) :
  consistent w -> isOpen c w = true ->
  isRunning w = true /\ open_sources w = [c].
Proof.
  intros [Hopen _] Hc. apply isOpen_In in Hc. rewrite Hopen in Hc |- *.
  destruct (isRunning w); simpl in Hc.
  - destruct Hc as [<- | []]. now split.
  - contradiction.
Qed.

(** *** The log buffer under a burst of messages *)

Lemma onmessage_logs {Store : Type} (data now : string) (w : world Store) :
  activityLogs (onmessage data now w) = activityLogs w ++ [logEntry (data, now)].
Proof. reflexivity. Qed.

Lemma pull_messages (c : nat) (msgs : list (string * string)) :
  forall w : Pull.world,
    isOpen c w = true ->
    activityLogs
      (Pull.run (map (fun m => Pull.StreamMessage c (fst m) (snd m)) msgs) w)
    = activityLogs w ++ map logEntry msgs.
Proof.
  induction msgs as [| [d t] msgs IH]; intros w Hc; simpl.
  - now rewrite app_nil_r.
  - unfold dispatch. rewrite Hc. rewrite IH by exact Hc.
    rewrite onmessage_logs, <- app_assoc. reflexivity.
Qed.

Lemma push_messages (c : nat) (msgs : list (string * string)) :
  forall w : Push.world,
    isOpen c w = true ->
    activityLogs
      (Push.run (map (fun m => Push.StreamMessage c (fst m) (snd m)) msgs) w)
    = activityLogs w ++ map logEntry msgs.
Proof.
  induction msgs as [| [d t] msgs IH]; intros w Hc; simpl.
  - now rewrite app_nil_r.
  - unfold dispatch. rewrite Hc. rewrite IH by exact Hc.
    rewrite onmessage_logs, <- app_assoc. reflexivity.
Qed.

(** *** The runtime invariant *)

(** Evaluates the handlers on an explicit world, leaving the list
    operations on the trace in place. *)
Ltac run_calls :=
  lazy beta iota zeta delta
    [Pull.onend Pull.onerror Pull.onopen Pull.runSystem
     Pull.fetchDashboardData Pull.fetchDashboardData_resume
     Pull.setInventory Pull.setPurchaseOrders Pull.setSlaViolations
     Pull.resolved promiseAll3
     Push.onerror Push.runSystem Push.runSystem_resume Push.replaceAll
     Push.setInventory Push.setPurchaseOrders Push.setRestockPlan
     Push.setSlaViolations Push.setMetrics Push.properties
     onmessage setIsRunning setActivityLogs setStore newEventSource
     close fetch consoleError consoleLog suspend resume emit
     store activityLogs isRunning open_sources next_source inflight trace].

Ltac open_world w :=
  destruct w as [st logs running opn nxt infl tr];
  unfold consistent in *;
  cbn [store activityLogs isRunning open_sources next_source inflight trace] in *.

(** Pushes [replay] and [fetches_settled] through the calls appended to a
    trace whose own reading is [Hr] and [Hf]. *)
Ltac read_trace Hr Hf :=
  repeat rewrite fetches_settled_snoc;
  repeat rewrite replay_snoc;
  try rewrite Hr; try rewrite Hf;
  cbn [replay_effect fst snd isFetch settled andb].

Lemma pull_resume_consistent (r1 : Pull.response InventoryItem.t)
    (r2 : Pull.response PurchaseOrder.t) (r3 : Pull.response SLAViolation.t)
    (w : Pull.world) :
  consistent w -> fetches_settled (trace w) = true ->
  consistent (Pull.fetchDashboardData_resume r1 r2 r3 w)
  /\ fetches_settled (trace (Pull.fetchDashboardData_resume r1 r2 r3 w)) = true.
Proof.
  intros Hc Hf. open_world w. destruct Hc as [Ho Hr].
  destruct r1 as [| s1 [b1 |]], r2 as [| s2 [b2 |]], r3 as [| s3 [b3 |]];
    run_calls; read_trace Hr Hf; repeat split; assumption.
Qed.

Lemma pull_terminal_consistent (c : nat) (w : Pull.world) :
  consistent w -> fetches_settled (trace w) = true ->
  isOpen c w = true ->
  (consistent (Pull.onend c w)
   /\ fetches_settled (trace (Pull.onend c w)) = true)
  /\ (consistent (Pull.onerror c w)
      /\ fetches_settled (trace (Pull.onerror c w)) = true).
Proof.
  intros Hc Hf Hopen.
  destruct (consistent_open c w Hc Hopen) as [Hrun Hone].
  open_world w. destruct Hc as [Ho Hr]. subst running opn.
  injection Hone as <-.
  run_calls. read_trace Hr Hf. repeat rewrite remove_single. repeat split.
Qed.

Lemma pull_runSystem_consistent (w : Pull.world) :
  consistent w -> fetches_settled (trace w) = true -> isRunning w = false ->
  consistent (Pull.runSystem w)
  /\ fetches_settled (trace (Pull.runSystem w)) = true.
Proof.
  intros Hc Hf Hrun. open_world w. destruct Hc as [Ho Hr]. subst running opn.
  run_calls. read_trace Hr Hf. repeat split.
Qed.

Lemma pull_step_consistent (w : Pull.world) (e : Pull.event) :
  consistent w -> fetches_settled (trace w) = true ->
  consistent (Pull.step w e) /\ fetches_settled (trace (Pull.step w e)) = true.
Proof.
  intros Hc Hf. destruct e as [| c | c data now | c type | c | r1 r2 r3]; cbn [Pull.step].
  - unfold button. destruct (isRunning w) eqn:Hrun.
    + now split.
    + now apply pull_runSystem_consistent.
  - unfold dispatch. destruct (isOpen c w); [| now split].
    open_world w. destruct Hc as [Ho Hr]. run_calls. read_trace Hr Hf. now split.
  - unfold dispatch. destruct (isOpen c w); [| now split].
    open_world w. destruct Hc as [Ho Hr]. run_calls. read_trace Hr Hf. now split.
  - destruct (String.eqb type "end"); [| now split].
    unfold dispatch. destruct (isOpen c w) eqn:Hopen; [| now split].
    exact (proj1 (pull_terminal_consistent c w Hc Hf Hopen)).
  - unfold dispatch. destruct (isOpen c w) eqn:Hopen; [| now split].
    exact (proj2 (pull_terminal_consistent c w Hc Hf Hopen)).
  - destruct (inflight w); [now split |].
    now apply pull_resume_consistent.
Qed.

Lemma pull_init_consistent :
  consistent Pull.init /\ fetches_settled (trace Pull.init) = true.
Proof. repeat split. Qed.

Lemma pull_run_consistent (evs : list Pull.event) :
  forall w : Pull.world,
    consistent w -> fetches_settled (trace w) = true ->
    consistent (Pull.run evs w) /\ fetches_settled (trace (Pull.run evs w)) = true.
Proof.
  induction evs as [| e evs IH]; intros w Hc Hf; cbn [Pull.run fold_left].
  - now split.
  - destruct (pull_step_consistent w e Hc Hf) as [Hc' Hf'].
    exact (IH _ Hc' Hf').
Qed.

Lemma push_step_consistent (w : Push.world) (e : Push.event) :
  consistent w -> consistent (Push.step w e).
Proof.
  intros Hc. destruct e as [| c | c data now | c type | c | r]; cbn [Push.step];
    try assumption.
  - unfold button. destruct (isRunning w) eqn:Hrun; [assumption |].
    open_world w. destruct Hc as [Ho Hr]. subst running opn.
    run_calls. read_trace Hr Hr. now split.
  - unfold dispatch. destruct (isOpen c w); [| assumption].
    open_world w. destruct Hc as [Ho Hr]. run_calls. read_trace Hr Hr. now split.
  - unfold dispatch. destruct (isOpen c w) eqn:Hopen; [| assumption].
    destruct (consistent_open c w Hc Hopen) as [Hrun Hone].
    open_world w. destruct Hc as [Ho Hr]. subst running opn.
    injection Hone as <-.
    run_calls. read_trace Hr Hr. repeat rewrite remove_single. now split.
  - destruct (inflight w); [assumption |].
    open_world w. destruct Hc as [Ho Hr].
    destruct r as [| s [[| | fields] |]]; run_calls; read_trace Hr Hr; now split.
Qed.

Lemma push_run_consistent (evs : list Push.event) :
  forall w : Push.world, consistent w -> consistent (Push.run evs w).
Proof.
  induction evs as [| e evs IH]; intros w Hc; cbn [Push.run fold_left].
  - assumption.
  - apply IH. now apply push_step_consistent.
Qed.

Lemma push_init_consistent : consistent Push.init.
Proof. split; reflexivity. Qed.

Lemma consistent_at_most_one {Store : Type} (w : world Store) :
  consistent w -> List.length (open_sources w) <= 1.
Proof.
  intros [Ho _]. rewrite Ho. destruct (isRunning w); simpl; lia.
Qed.

(** ** The read-model store under [fetchDashboardData] *)

Lemma pull_resume_rejected (r1 : Pull.response InventoryItem.t)
    (r2 : Pull.response PurchaseOrder.t) (r3 : Pull.response SLAViolation.t)
    (w : Pull.world) :
  rejected r1 || rejected r2 || rejected r3 = true ->
  Pull.fetchDashboardData_resume r1 r2 r3 w
  = consoleError "Failed to load dashboard data:" (resume w).
Proof.
  destruct r1 as [| s1 [b1 |]], r2 as [| s2 [b2 |]], r3 as [| s3 [b3 |]];
    cbn [rejected orb]; intros H; try discriminate H; reflexivity.
Qed.

Lemma pull_resume_decoded (s1 s2 s3 : nat) (d1 : Pull.body InventoryItem.t)
    (d2 : Pull.body PurchaseOrder.t) (d3 : Pull.body SLAViolation.t)
    (w : Pull.world) :
  store (Pull.fetchDashboardData_resume
           (Pull.Response s1 (Some d1)) (Pull.Response s2 (Some d2))
           (Pull.Response s3 (Some d3)) w)
  = Pull.mkStore (Pull.orEmpty d1) (Pull.orEmpty d2) (Pull.orEmpty d3).
Proof. reflexivity. Qed.

Lemma failures_one_rejected {A B C : Type} (r1 : Pull.response A)
    (r2 : Pull.response B) (r3 : Pull.response C) :
  failures r1 r2 r3 = 1 -> rejected r1 || rejected r2 || rejected r3 = true.
Proof.
  unfold failures. destruct (rejected r1), (rejected r2), (rejected r3);
    cbn; intros H; try reflexivity; discriminate H.
Qed.

Lemma consoleErrors_snoc (t : list effect) (msg : string) :
  consoleErrors (t ++ [ConsoleError msg]) = S (consoleErrors t).
Proof.
  unfold consoleErrors. rewrite filter_app, length_app. cbn. lia.
Qed.

(** C1, as amended: when exactly one of the three GETs of
    [fetchDashboardData] fails (its [fetch] or its [json()] rejects), the
    single [catch] runs: no slot of the store is updated, all three keep
    their previous snapshot, and exactly one error is written to the
    console; the log buffer and the running flag are untouched. *)
Theorem fetchDashboardData_one_failure_keeps_snapshot :
  forall (w : Pull.world) (r1 : Pull.response InventoryItem.t)
         (r2 : Pull.response PurchaseOrder.t) (r3 : Pull.response SLAViolation.t),
    failures r1 r2 r3 = 1 ->
    let w' := Pull.fetchDashboardData_resume r1 r2 r3 w in
    store w' = store w
    /\ trace w' = trace w ++ [ConsoleError "Failed to load dashboard data:"]
    /\ consoleErrors (trace w') = S (consoleErrors (trace w))
    /\ reconcileCalls (trace w') = reconcileCalls (trace w)
    /\ activityLogs w' = activityLogs w
    /\ isRunning w' = isRunning w.
Proof.
  intros w r1 r2 r3 H w'. subst w'.
  rewrite (pull_resume_rejected r1 r2 r3 w (failures_one_rejected r1 r2 r3 H)).
  repeat split; cbn [trace consoleError emit resume].
  - apply consoleErrors_snoc.
  - unfold reconcileCalls. rewrite filter_app. cbn. now rewrite app_nil_r.
Qed.

Lemma fetchDashboardData_one_failure_keeps_snapshot_witness :
  Pull.inventory
    (store (Pull.fetchDashboardData_resume
              (Pull.Response 200 (Some (Pull.JArray [widget 60 10])))
              (Pull.Response 200 (Some (Pull.JArray [order1001])))
              (Pull.Response 500 None) staleDashboard))
  = [widget 5 10].
Proof.
  rewrite (proj1 (fetchDashboardData_one_failure_keeps_snapshot
                    staleDashboard
                    (Pull.Response 200 (Some (Pull.JArray [widget 60 10])))
                    (Pull.Response 200 (Some (Pull.JArray [order1001])))
                    (Pull.Response 500 None) eq_refl)).
  reflexivity.
Defined.

(** C1, as stated, fails: with [/inventory] and [/purchase-orders] answered
    and [/sla-violations] answering 500 with a body that is not JSON, the
    inventory and purchase-order slots are not updated from their
    responses. *)
Lemma fetchDashboardData_one_failure_blocks_others :
  let r1 := Pull.Response 200 (Some (Pull.JArray [widget 60 10])) in
  let r2 := Pull.Response 200 (Some (Pull.JArray [order1001])) in
  let r3 := Pull.Response 500 None in
  let w' := Pull.fetchDashboardData_resume r1 r2 r3 staleDashboard in
  failures r1 r2 r3 = 1
  /\ ~ (Pull.inventory (store w') = [widget 60 10]
        /\ Pull.purchaseOrders (store w') = [order1001]
        /\ Pull.slaViolations (store w') = Pull.slaViolations (store staleDashboard)
        /\ consoleErrors (trace w') = S (consoleErrors (trace staleDashboard))).
Proof.
  split; [reflexivity |]. intros [H _]. vm_compute in H. discriminate H.
Qed.

(** C10: when all three GETs succeed and a resource's decoded body is
    [null] or another falsy value, [data || []] puts the empty array in that
    resource's slot: the previous snapshot of the slot is discarded. *)
Theorem fetchDashboardData_falsy_body_empties_slot :
  forall (w : Pull.world) (s1 s2 s3 : nat) (d1 : Pull.body InventoryItem.t)
         (d2 : Pull.body PurchaseOrder.t) (d3 : Pull.body SLAViolation.t),
    let w' := Pull.fetchDashboardData_resume
                (Pull.Response s1 (Some d1)) (Pull.Response s2 (Some d2))
                (Pull.Response s3 (Some d3)) w in
    (isFalsy d1 = true -> Pull.inventory (store w') = [])
    /\ (isFalsy d2 = true -> Pull.purchaseOrders (store w') = [])
    /\ (isFalsy d3 = true -> Pull.slaViolations (store w') = [])
    /\ consoleErrors (trace w') = consoleErrors (trace w).
Proof.
  intros w s1 s2 s3 d1 d2 d3 w'. subst w'. rewrite pull_resume_decoded.
  cbn [Pull.inventory Pull.purchaseOrders Pull.slaViolations].
  repeat split.
  - destruct d1; cbn; intros H; [reflexivity .. | discriminate H].
  - destruct d2; cbn; intros H; [reflexivity .. | discriminate H].
  - destruct d3; cbn; intros H; [reflexivity .. | discriminate H].
  - destruct w. unfold consoleErrors. run_calls.
    repeat rewrite filter_app. cbn. now repeat rewrite app_nil_r.
Qed.

Lemma fetchDashboardData_falsy_body_empties_slot_witness :
  Pull.slaViolations (store staleDashboard) = [lateDelivery]
  /\ Pull.slaViolations
       (store (Pull.fetchDashboardData_resume
                 (Pull.Response 200 (Some (Pull.JArray [widget 60 10])))
                 (Pull.Response 200 (Some (Pull.JArray [order1001])))
                 (Pull.Response 200 (Some Pull.JNull)) staleDashboard))
     = [].
Proof.
  split; [reflexivity |].
  apply (fetchDashboardData_falsy_body_empties_slot staleDashboard 200 200 200
           (Pull.JArray [widget 60 10]) (Pull.JArray [order1001]) Pull.JNull).
  reflexivity.
Defined.

(** ** Derived values *)

Lemma filter_isLowStock_length (items : list InventoryItem.t) :
  List.length (filter Pull.isLowStock items) = countLowStock items.
Proof.
  induction items as [| item rest IH]; cbn [filter countLowStock].
  - reflexivity.
  - unfold Pull.isLowStock at 1.
    destruct (Z_lt_dec (InventoryItem.stock_level item)
                       (InventoryItem.reorder_threshold item)) as [Hlt | Hge].
    + apply Z.ltb_lt in Hlt. rewrite Hlt. cbn [List.length]. now rewrite IH.
    + apply Z.ltb_nlt in Hge. rewrite Hge. exact IH.
Qed.

(** C9: the low-stock count is no hook of the component but the length of
    [lowStockItems], a function of the inventory hook alone: it equals the
    number of items with [stock_level < reorder_threshold], its members are
    exactly those items, two worlds with the same inventory have the same
    count, and for [{stock:5,threshold:10},{stock:20,threshold:5}] it is 1. *)
Theorem lowStockItems_derived_from_inventory :
  (forall w : Pull.world,
      List.length (Pull.lowStockItems w) = countLowStock (Pull.inventory (store w))
      /\ (forall item : InventoryItem.t,
             In item (Pull.lowStockItems w) <->
             In item (Pull.inventory (store w))
             /\ (InventoryItem.stock_level item < InventoryItem.reorder_threshold item)%Z))
  /\ (forall w1 w2 : Pull.world,
         Pull.inventory (store w1) = Pull.inventory (store w2) ->
         Pull.lowStockItems w1 = Pull.lowStockItems w2)
  /\ (forall w : Pull.world,
         Pull.inventory (store w) = [widget 5 10; gadget 20 5] ->
         List.length (Pull.lowStockItems w) = 1).
Proof.
  split; [| split].
  - intros w. split; [apply filter_isLowStock_length |].
    intros item. unfold Pull.lowStockItems, Pull.isLowStock.
    rewrite filter_In, Z.ltb_lt. reflexivity.
  - intros w1 w2 H. unfold Pull.lowStockItems. now rewrite H.
  - intros w H. unfold Pull.lowStockItems. rewrite H. reflexivity.
Qed.

Lemma lowStockItems_derived_from_inventory_witness :
  List.length
    (Pull.lowStockItems
       (mkWorld (Pull.mkStore [widget 5 10; gadget 20 5] [order1001] [])
                [] false [] 0 0 []))
  = 1.
Proof.
  apply (proj2 (proj2 lowStockItems_derived_from_inventory)). reflexivity.
Defined.

(** ** Starting a run *)

Lemma button_disabled {Store : Type} (handler : world Store -> world Store)
    (w : world Store) :
  isRunning w = true -> button handler w = w.
Proof. unfold button. now intros ->. Qed.

Lemma button_enabled {Store : Type} (handler : world Store -> world Store)
    (w : world Store) :
  isRunning w = false -> button handler w = handler w.
Proof. unfold button. now intros ->. Qed.

Lemma isOpen_head {Store : Type} (c : nat) (w : world Store) (rest : list nat) :
  open_sources w = c :: rest -> isOpen c w = true.
Proof.
  intros H. unfold isOpen. rewrite H. cbn. now rewrite Nat.eqb_refl.
Qed.

(** C2: while a run is Running the Run button is disabled, so a further
    start (a click, the only caller of [runSystem]) is a no-op in both
    variants: the world, hence the log buffer, the set of open connections
    and the trace, is unchanged; and whatever the event loop delivers, at
    most one stream connection is open at any time. *)
Theorem start_while_running_is_noop :
  (forall w : Pull.world, isRunning w = true -> Pull.step w Pull.Click = w)
  /\ (forall w : Push.world, isRunning w = true -> Push.step w Push.Click = w)
  /\ (forall evs : list Pull.event,
         List.length (open_sources (Pull.run evs Pull.init)) <= 1)
  /\ (forall evs : list Push.event,
         List.length (open_sources (Push.run evs Push.init)) <= 1).
Proof.
  repeat apply conj.
  - intros w H. now apply button_disabled.
  - intros w H. now apply button_disabled.
  - intros evs. apply consistent_at_most_one.
    now apply pull_run_consistent; apply pull_init_consistent.
  - intros evs. apply consistent_at_most_one.
    apply push_run_consistent, push_init_consistent.
Qed.

Lemma start_while_running_is_noop_witness :
  isRunning runningPush = true
  /\ Push.step runningPush Push.Click = runningPush.
Proof.
  split; [reflexivity |].
  apply (proj1 (proj2 start_while_running_is_noop)). reflexivity.
Defined.

(** The guard is the button's: [runSystem] itself, were it called while a
    run is in progress, would open a second connection. *)
Remark runSystem_has_no_guard_of_its_own :
  open_sources runningPush = [0]
  /\ open_sources (Push.runSystem runningPush) = [1; 0].
Proof. split; reflexivity. Qed.

(** C7: every start that proceeds, in either variant, empties the log
    buffer before anything else can be appended: [runSystem] leaves the
    buffer empty; after start, receive a, start, receive b the buffer holds
    the entry of b alone; and the same holds through the button, where the
    first run has to end (pull: end event, push: stream error) before the
    second click proceeds. *)
Theorem runSystem_clears_logs :
  (forall w : Pull.world, activityLogs (Pull.runSystem w) = [])
  /\ (forall w : Push.world, activityLogs (Push.runSystem w) = [])
  /\ (forall (w : Pull.world) (a ta b tb : string),
         let w1 := Pull.runSystem w in
         let w2 := Pull.step w1 (Pull.StreamMessage (next_source w) a ta) in
         let w3 := Pull.runSystem w2 in
         let w4 := Pull.step w3 (Pull.StreamMessage (next_source w2) b tb) in
         activityLogs w2 = [mkStreamLog (trim a) ta]
         /\ activityLogs w4 = [mkStreamLog (trim b) tb])
  /\ (forall (w : Push.world) (a ta b tb : string),
         let w1 := Push.runSystem w in
         let w2 := Push.step w1 (Push.StreamMessage (next_source w) a ta) in
         let w3 := Push.runSystem w2 in
         let w4 := Push.step w3 (Push.StreamMessage (next_source w2) b tb) in
         activityLogs w2 = [mkStreamLog (trim a) ta]
         /\ activityLogs w4 = [mkStreamLog (trim b) tb])
  /\ (forall (w : Pull.world) (a ta b tb : string),
         isRunning w = false ->
         let c := next_source w in
         activityLogs
           (Pull.run [Pull.Click; Pull.StreamMessage c a ta; Pull.StreamNamed c "end";
                      Pull.Click; Pull.StreamMessage (S c) b tb] w)
         = [mkStreamLog (trim b) tb])
  /\ (forall (w : Push.world) (a ta b tb : string),
         isRunning w = false ->
         let c := next_source w in
         activityLogs
           (Push.run [Push.Click; Push.StreamMessage c a ta; Push.StreamError c;
                      Push.Click; Push.StreamMessage (S c) b tb] w)
         = [mkStreamLog (trim b) tb]).
Proof.
  repeat apply conj.
  - reflexivity.
  - reflexivity.
  - intros [st logs running opn nxt infl tr] a ta b tb.
    cbn [Pull.step next_source]. unfold dispatch, isOpen.
    repeat (progress (cbn; rewrite ?Nat.eqb_refl)). now split.
  - intros [st logs running opn nxt infl tr] a ta b tb.
    cbn [Push.step next_source]. unfold dispatch, isOpen.
    repeat (progress (cbn; rewrite ?Nat.eqb_refl)). now split.
  - intros [st logs running opn nxt infl tr] a ta b tb H. cbn in H. subst running.
    cbn [Pull.run fold_left Pull.step next_source]. unfold button, dispatch, isOpen.
    repeat (progress (cbn; rewrite ?Nat.eqb_refl)). reflexivity.
  - intros [st logs running opn nxt infl tr] a ta b tb H. cbn in H. subst running.
    cbn [Push.run fold_left Push.step next_source]. unfold button, dispatch, isOpen.
    repeat (progress (cbn; rewrite ?Nat.eqb_refl)). reflexivity.
Qed.

Lemma runSystem_clears_logs_witness :
  activityLogs
    (Pull.run [Pull.Click; Pull.StreamMessage 0 "a" "10:00:00";
               Pull.StreamNamed 0 "end";
               Pull.Click; Pull.StreamMessage 1 "b" "10:05:00"] Pull.init)
  = [mkStreamLog "b" "10:05:00"].
Proof.
  exact (proj1 (proj2 (proj2 (proj2 (proj2 runSystem_clears_logs))))
           Pull.init "a" "10:00:00" "b" "10:05:00" eq_refl).
Defined.

(** Through the button alone the sequence start, receive a, start, receive b
    has a second start that does not proceed: the first run is still
    Running, the click is dropped and nothing is cleared. *)
Remark second_click_while_running_clears_nothing :
  activityLogs
    (Pull.run [Pull.Click; Pull.StreamMessage 0 "a" "10:00:00";
               Pull.Click; Pull.StreamMessage 0 "b" "10:05:00"] Pull.init)
  = [mkStreamLog "a" "10:00:00"; mkStreamLog "b" "10:05:00"].
Proof. reflexivity. Qed.

(** ** The log buffer *)

(** C8: in both variants, N unnamed messages delivered by the open stream,
    with no end or error event among them, append one entry
    [{message: payload.trim(), timestamp: now}] each, in arrival order,
    behind the entries already there, which are left as they were; right
    after a start the buffer therefore holds exactly these N entries. *)
Theorem messages_append_in_arrival_order :
  (forall (w : Pull.world) (c : nat) (msgs : list (string * string)),
      isOpen c w = true ->
      let w' := Pull.run (map (fun m => Pull.StreamMessage c (fst m) (snd m)) msgs) w in
      activityLogs w' = activityLogs w ++ map logEntry msgs
      /\ List.length (activityLogs w') = List.length (activityLogs w) + List.length msgs)
  /\ (forall (w : Push.world) (c : nat) (msgs : list (string * string)),
         isOpen c w = true ->
         let w' := Push.run (map (fun m => Push.StreamMessage c (fst m) (snd m)) msgs) w in
         activityLogs w' = activityLogs w ++ map logEntry msgs
         /\ List.length (activityLogs w') = List.length (activityLogs w) + List.length msgs)
  /\ (forall (w : Pull.world) (msgs : list (string * string)),
         isRunning w = false ->
         let c := next_source w in
         let w' := Pull.run (Pull.Click
                             :: map (fun m => Pull.StreamMessage c (fst m) (snd m)) msgs) w in
         activityLogs w' = map logEntry msgs
         /\ List.length (activityLogs w') = List.length msgs)
  /\ (forall (w : Push.world) (msgs : list (string * string)),
         isRunning w = false ->
         let c := next_source w in
         let w' := Push.run (Push.Click
                             :: map (fun m => Push.StreamMessage c (fst m) (snd m)) msgs) w in
         activityLogs w' = map logEntry msgs
         /\ List.length (activityLogs w') = List.length msgs).
Proof.
  repeat apply conj.
  - intros w c msgs H w'. subst w'. rewrite (pull_messages c msgs w H).
    split; [reflexivity |]. now rewrite length_app, length_map.
  - intros w c msgs H w'. subst w'. rewrite (push_messages c msgs w H).
    split; [reflexivity |]. now rewrite length_app, length_map.
  - intros w msgs H c w'. subst w'. cbn [Pull.run fold_left Pull.step].
    rewrite (button_enabled _ w H).
    fold (Pull.run (map (fun m => Pull.StreamMessage c (fst m) (snd m)) msgs)
                   (Pull.runSystem w)).
    rewrite pull_messages by (now apply (isOpen_head c _ (open_sources w))).
    split; [reflexivity |]. cbn. now rewrite length_map.
  - intros w msgs H c w'. subst w'. cbn [Push.run fold_left Push.step].
    rewrite (button_enabled _ w H).
    fold (Push.run (map (fun m => Push.StreamMessage c (fst m) (snd m)) msgs)
                   (Push.runSystem w)).
    rewrite push_messages by (now apply (isOpen_head c _ (open_sources w))).
    split; [reflexivity |]. cbn. now rewrite length_map.
Qed.

Lemma messages_append_in_arrival_order_witness :
  activityLogs
    (Push.run [Push.StreamMessage 0 "  Checking inventory levels... " "10:00:01";
               Push.StreamMessage 0 "Placing order PO-1001" "10:00:02"]
              runningPush)
  = [mkStreamLog "Checking inventory levels..." "10:00:01";
     mkStreamLog "Placing order PO-1001" "10:00:02"].
Proof.
  apply (proj1 (proj2 messages_append_in_arrival_order) runningPush 0
           [("  Checking inventory levels... ", "10:00:01");
            ("Placing order PO-1001", "10:00:02")] eq_refl).
Defined.

(** ** The end of a run *)

Lemma pull_onend_spec (w : Pull.world) (c : nat) :
  consistent w -> isOpen c w = true ->
  let w' := Pull.onend c w in
  isRunning w = true
  /\ isRunning w' = false
  /\ open_sources w' = []
  /\ trace w' = trace w ++ [CloseEventSource c; SetIsRunning false;
                            Fetch "http://localhost:8000/inventory";
                            Fetch "http://localhost:8000/purchase-orders";
                            Fetch "http://localhost:8000/sla-violations"]
  /\ inflight w' = S (inflight w)
  /\ store w' = store w
  /\ activityLogs w' = activityLogs w.
Proof.
  intros Hc Hopen. destruct (consistent_open c w Hc Hopen) as [Hrun Hone].
  destruct w as [st logs running opn nxt infl tr].
  cbn [isRunning open_sources] in Hrun, Hone. subst running opn.
  run_calls. rewrite remove_single. repeat rewrite <- app_assoc.
  repeat split.
Qed.

Lemma pull_onerror_spec (w : Pull.world) (c : nat) :
  consistent w -> isOpen c w = true ->
  let w' := Pull.onerror c w in
  isRunning w = true
  /\ isRunning w' = false
  /\ open_sources w' = []
  /\ trace w' = trace w ++ [ConsoleError "Stream error occurred";
                            CloseEventSource c; SetIsRunning false;
                            Fetch "http://localhost:8000/inventory";
                            Fetch "http://localhost:8000/purchase-orders";
                            Fetch "http://localhost:8000/sla-violations"]
  /\ inflight w' = S (inflight w)
  /\ store w' = store w
  /\ activityLogs w' = activityLogs w.
Proof.
  intros Hc Hopen. destruct (consistent_open c w Hc Hopen) as [Hrun Hone].
  destruct w as [st logs running opn nxt infl tr].
  cbn [isRunning open_sources] in Hrun, Hone. subst running opn.
  run_calls. rewrite remove_single. repeat rewrite <- app_assoc.
  repeat split.
Qed.

Lemma push_onerror_spec (w : Push.world) (c : nat) :
  consistent w -> isOpen c w = true ->
  let w' := Push.onerror c w in
  isRunning w = true
  /\ isRunning w' = false
  /\ open_sources w' = []
  /\ trace w' = trace w ++ [CloseEventSource c; SetIsRunning false]
  /\ inflight w' = inflight w
  /\ store w' = store w
  /\ activityLogs w' = activityLogs w.
Proof.
  intros Hc Hopen. destruct (consistent_open c w Hc Hopen) as [Hrun Hone].
  destruct w as [st logs running opn nxt infl tr].
  cbn [isRunning open_sources] in Hrun, Hone. subst running opn.
  run_calls. rewrite remove_single. repeat rewrite <- app_assoc.
  repeat split.
Qed.

Lemma dispatch_closed {Store : Type} (c : nat) (handler : world Store -> world Store)
    (w : world Store) :
  open_sources w = [] -> dispatch c handler w = w.
Proof. intros H. unfold dispatch, isOpen. now rewrite H. Qed.

Lemma reconcileCalls_app (t u : list effect) :
  reconcileCalls (t ++ u) = reconcileCalls t + reconcileCalls u.
Proof. unfold reconcileCalls. now rewrite filter_app, length_app. Qed.

(** C3, as amended: in the pull variant, when the open stream of a run
    delivers the end event, the listener closes that connection, lowers
    [isRunning] (the only status the component keeps) and calls
    [fetchDashboardData] exactly once, one request per read model, in this
    order; the closed stream can deliver nothing further, so a repeated end
    event changes nothing. *)
Theorem pull_end_event_settles_run :
  forall (evs : list Pull.event) (c : nat),
    let w := Pull.run evs Pull.init in
    isOpen c w = true ->
    let w' := Pull.step w (Pull.StreamNamed c "end") in
    isRunning w = true
    /\ isRunning w' = false
    /\ open_sources w' = []
    /\ trace w' = trace w ++ [CloseEventSource c; SetIsRunning false;
                              Fetch "http://localhost:8000/inventory";
                              Fetch "http://localhost:8000/purchase-orders";
                              Fetch "http://localhost:8000/sla-violations"]
    /\ inflight w' = S (inflight w)
    /\ Pull.step w' (Pull.StreamNamed c "end") = w'.
Proof.
  intros evs c w Hopen w'.
  assert (Hc : consistent w)
    by (now apply pull_run_consistent; apply pull_init_consistent).
  assert (Hw' : w' = Pull.onend c w).
  { subst w'. cbn [Pull.step String.eqb Ascii.eqb Bool.eqb]. unfold dispatch.
    now rewrite Hopen. }
  destruct (pull_onend_spec w c Hc Hopen) as (H1 & H2 & H3 & H4 & H5 & _).
  rewrite Hw'. repeat split; try assumption.
  cbn [Pull.step String.eqb Ascii.eqb Bool.eqb]. now apply dispatch_closed.
Qed.

Lemma pull_end_event_settles_run_witness :
  isRunning
    (Pull.step (Pull.run [Pull.Click; Pull.StreamMessage 0 "Placing order PO-1001" "10:00:00"]
                         Pull.init)
               (Pull.StreamNamed 0 "end"))
  = false.
Proof.
  apply (pull_end_event_settles_run
           [Pull.Click; Pull.StreamMessage 0 "Placing order PO-1001" "10:00:00"] 0 eq_refl).
Defined.

(** C3, as stated, fails in the push variant: no listener for the end event
    is installed there, so the event leaves the session as it was, Running
    and with its connection open. *)
Lemma push_end_event_is_ignored :
  let w' := Push.step runningPush (Push.StreamNamed 0 "end") in
  isOpen 0 runningPush = true
  /\ isRunning runningPush = true
  /\ w' = runningPush
  /\ ~ (isRunning w' = false /\ open_sources w' = []).
Proof.
  repeat split. intros [H _]. discriminate H.
Qed.

(** C5, as amended: when the open stream of a run reports an error, the
    handler of either variant closes that connection and lowers [isRunning]
    (there is no separate Error status).  In the pull variant it first logs
    the error and then calls [fetchDashboardData] exactly once; in the push
    variant it does nothing else: no request is issued and no read model is
    set by the handler. *)
Theorem stream_error_ends_run :
  (forall (evs : list Pull.event) (c : nat),
      let w := Pull.run evs Pull.init in
      isOpen c w = true ->
      let w' := Pull.step w (Pull.StreamError c) in
      isRunning w = true
      /\ isRunning w' = false
      /\ open_sources w' = []
      /\ trace w' = trace w ++ [ConsoleError "Stream error occurred";
                                CloseEventSource c; SetIsRunning false;
                                Fetch "http://localhost:8000/inventory";
                                Fetch "http://localhost:8000/purchase-orders";
                                Fetch "http://localhost:8000/sla-violations"]
      /\ inflight w' = S (inflight w)
      /\ Pull.step w' (Pull.StreamError c) = w')
  /\ (forall (evs : list Push.event) (c : nat),
         let w := Push.run evs Push.init in
         isOpen c w = true ->
         let w' := Push.step w (Push.StreamError c) in
         isRunning w = true
         /\ isRunning w' = false
         /\ open_sources w' = []
         /\ trace w' = trace w ++ [CloseEventSource c; SetIsRunning false]
         /\ reconcileCalls (trace w') = reconcileCalls (trace w)
         /\ inflight w' = inflight w
         /\ store w' = store w
         /\ Push.step w' (Push.StreamError c) = w').
Proof.
  split.
  - intros evs c w Hopen w'.
    assert (Hc : consistent w)
      by (now apply pull_run_consistent; apply pull_init_consistent).
    assert (Hw' : w' = Pull.onerror c w).
    { subst w'. cbn [Pull.step]. unfold dispatch. now rewrite Hopen. }
    destruct (pull_onerror_spec w c Hc Hopen) as (H1 & H2 & H3 & H4 & H5 & _).
    rewrite Hw'. repeat split; try assumption.
    cbn [Pull.step]. now apply dispatch_closed.
  - intros evs c w Hopen w'.
    assert (Hc : consistent w)
      by (apply push_run_consistent, push_init_consistent).
    assert (Hw' : w' = Push.onerror c w).
    { subst w'. cbn [Push.step]. unfold dispatch. now rewrite Hopen. }
    destruct (push_onerror_spec w c Hc Hopen) as (H1 & H2 & H3 & H4 & H5 & H6 & _).
    rewrite Hw'. repeat split; try assumption.
    + rewrite H4, reconcileCalls_app. cbn. lia.
    + cbn [Push.step]. now apply dispatch_closed.
Qed.

Lemma stream_error_ends_run_witness :
  isRunning (Pull.step (Pull.run [Pull.Click] Pull.init) (Pull.StreamError 0)) = false
  /\ isRunning (Push.step runningPush (Push.StreamError 0)) = false.
Proof.
  split.
  - apply (proj1 stream_error_ends_run [Pull.Click] 0 eq_refl).
  - apply (proj2 stream_error_ends_run [Push.Click] 0 eq_refl).
Defined.

(** C5, as stated, fails in the push variant: the error handler issues no
    request and sets no read model, and when [GET /run] fails as well the
    run is never reconciled. *)
Lemma push_stream_error_triggers_no_reconciliation :
  let url := "http://localhost:8000/run" in
  let w' := Push.step runningPush (Push.StreamError 0) in
  let w'' := Push.step w' (Push.RunResponse Push.NetworkError) in
  isOpen 0 runningPush = true
  /\ trace w' = trace runningPush ++ [CloseEventSource 0; SetIsRunning false]
  /\ ~ (requests url (trace w') = S (requests url (trace runningPush)))
  /\ trace w'' = trace w'
  /\ store w'' = store Push.init.
Proof.
  repeat split. intros H. discriminate H.
Qed.

(** ** Ordering of reconciliation *)

(** C6, as amended: in the pull variant, whatever the event loop delivers,
    every request of the component is issued at a moment when no stream
    connection is open and [isRunning] is down: the reconciliation requests
    of a run come after its end or error handler has closed the connection
    and lowered the flag, never between a start and that point. *)
Theorem pull_reconciles_after_terminal :
  forall evs : list Pull.event,
    fetches_settled (trace (Pull.run evs Pull.init)) = true.
Proof.
  intros evs. now apply pull_run_consistent; apply pull_init_consistent.
Qed.

(** C6, as stated, fails in the push variant: [runSystem] issues
    [GET /run] itself, right after opening the stream, and its payload is
    applied as soon as it arrives, here while the run is still Running and
    its connection open. *)
Lemma push_reconciles_before_terminal :
  let w' := Push.step runningPush
              (Push.RunResponse (Push.Response 200 (Some (Push.JObject payloadWithoutMetrics)))) in
  trace runningPush = [SetIsRunning true; SetActivityLogs;
                       NewEventSource 0 "http://localhost:8000/run-full-stream";
                       Fetch "http://localhost:8000/run"]
  /\ fetches_settled (trace runningPush) = false
  /\ isRunning w' = true
  /\ open_sources w' = [0]
  /\ Push.inventory (store w') = Some [widget 60 10]
  /\ fetches_settled (trace w') <> true.
Proof.
  repeat split. intros H. discriminate H.
Qed.

(** ** The read-model store under the combined payload *)

(** C4, as amended: the five setters that apply the [/run] payload run
    unconditionally, one per field, whether or not the field is present: each
    slot takes its field of the payload, a missing field leaving [undefined]
    in its slot while the other slots are replaced; the log buffer and the
    running flag are untouched.  The store keeps its snapshot only when the
    payload cannot be read at all: the request or its decoding fails, or the
    body is [null]. *)
Theorem replaceAll_overwrites_every_slot :
  forall (w : Push.world) (status : nat),
    (forall fields : Push.Payload.t,
        let w' := Push.runSystem_resume
                    (Push.Response status (Some (Push.JObject fields))) w in
        store w' = Push.mkStore (Push.Payload.inventory_data fields)
                                (Push.Payload.purchase_orders fields)
                                (Push.Payload.restock_plan fields)
                                (Push.Payload.sla_violations fields)
                                (Push.Payload.metrics fields)
        /\ trace w' = trace w ++ [SetReadModel "inventory"; SetReadModel "purchaseOrders";
                                  SetReadModel "restockPlan"; SetReadModel "slaViolations";
                                  SetReadModel "metrics"]
        /\ activityLogs w' = activityLogs w
        /\ isRunning w' = isRunning w)
    /\ store (Push.runSystem_resume Push.NetworkError w) = store w
    /\ store (Push.runSystem_resume (Push.Response status None) w) = store w
    /\ store (Push.runSystem_resume (Push.Response status (Some Push.JNull)) w) = store w.
Proof.
  intros [st logs running opn nxt infl tr] status. split; [| repeat split].
  intros fields. run_calls. repeat rewrite <- app_assoc. repeat split.
Qed.

(** C4, as stated, fails: a payload without [metrics] is not rejected; the
    other four slots are replaced and the metrics slot becomes
    [undefined]. *)
Lemma replaceAll_applies_partial_payload :
  let w' := Push.runSystem_resume
              (Push.Response 200 (Some (Push.JObject payloadWithoutMetrics))) runningPush in
  Push.Payload.metrics payloadWithoutMetrics = None
  /\ Push.inventory (store runningPush) = Some []
  /\ Push.inventory (store w') = Some [widget 60 10]
  /\ Push.purchaseOrders (store w') = Some [order1001]
  /\ Push.metrics (store w') = None
  /\ store w' <> store runningPush.
Proof.
  repeat split. intros H. discriminate H.
Qed.

(** * Further properties of the code *)

(** ** Who writes what *)

Lemma pull_resume_frame (r1 : Pull.response InventoryItem.t)
    (r2 : Pull.response PurchaseOrder.t) (r3 : Pull.response SLAViolation.t)
    (w : Pull.world) :
  let w' := Pull.fetchDashboardData_resume r1 r2 r3 w in
  activityLogs w' = activityLogs w
  /\ isRunning w' = isRunning w
  /\ open_sources w' = open_sources w
  /\ next_source w' = next_source w.
Proof.
  destruct r1 as [| s1 [b1 |]], r2 as [| s2 [b2 |]], r3 as [| s3 [b3 |]];
    repeat split.
Qed.

Lemma push_resume_frame (r : Push.response) (w : Push.world) :
  let w' := Push.runSystem_resume r w in
  activityLogs w' = activityLogs w
  /\ isRunning w' = isRunning w
  /\ open_sources w' = open_sources w
  /\ next_source w' = next_source w.
Proof.
  destruct r as [| s [[| | fields] |]]; repeat split.
Qed.

(** In the pull variant the session and the store have separate writers:
    a click or a stream event never changes a read model, and the answers
    to [fetchDashboardData] never change the log buffer, the running flag
    or the connections. *)
Theorem pull_session_and_store_are_separate :
  forall (w : Pull.world) (e : Pull.event),
    (Pull.isResponse e = false -> store (Pull.step w e) = store w)
    /\ (Pull.isResponse e = true ->
        activityLogs (Pull.step w e) = activityLogs w
        /\ isRunning (Pull.step w e) = isRunning w
        /\ open_sources (Pull.step w e) = open_sources w
        /\ next_source (Pull.step w e) = next_source w).
Proof.
  intros w e. split; intros He.
  - destruct e as [| c | c data now | c type | c | r1 r2 r3];
      try discriminate He; cbn [Pull.step]; unfold button, dispatch.
    + destruct (isRunning w); reflexivity.
    + destruct (isOpen c w); reflexivity.
    + destruct (isOpen c w); reflexivity.
    + destruct (String.eqb type "end"); [| reflexivity].
      destruct (isOpen c w); reflexivity.
    + destruct (isOpen c w); reflexivity.
  - destruct e as [| c | c data now | c type | c | r1 r2 r3];
      try discriminate He; cbn [Pull.step].
    destruct (inflight w); [repeat split |]. apply pull_resume_frame.
Qed.

Lemma pull_session_and_store_are_separate_witness :
  store (Pull.step staleDashboard (Pull.StreamError 0)) = store staleDashboard.
Proof.
  apply (proj1 (pull_session_and_store_are_separate
                  staleDashboard (Pull.StreamError 0))).
  reflexivity.
Defined.

(** The same separation in the push variant: only the answer to [GET /run]
    writes read models, and it writes nothing else. *)
Theorem push_session_and_store_are_separate :
  forall (w : Push.world) (e : Push.event),
    (Push.isResponse e = false -> store (Push.step w e) = store w)
    /\ (Push.isResponse e = true ->
        activityLogs (Push.step w e) = activityLogs w
        /\ isRunning (Push.step w e) = isRunning w
        /\ open_sources (Push.step w e) = open_sources w
        /\ next_source (Push.step w e) = next_source w).
Proof.
  intros w e. split; intros He.
  - destruct e as [| c | c data now | c type | c | r];
      try discriminate He; cbn [Push.step]; unfold button, dispatch;
      try reflexivity.
    + destruct (isRunning w); reflexivity.
    + destruct (isOpen c w); reflexivity.
    + destruct (isOpen c w); reflexivity.
  - destruct e as [| c | c data now | c type | c | r];
      try discriminate He; cbn [Push.step].
    destruct (inflight w); [repeat split |]. apply push_resume_frame.
Qed.

Lemma push_session_and_store_are_separate_witness :
  isRunning
    (Push.step runningPush
       (Push.RunResponse (Push.Response 200 (Some (Push.JObject payloadWithoutMetrics)))))
  = true.
Proof.
  rewrite (proj1 (proj2 (proj2 (push_session_and_store_are_separate runningPush
            (Push.RunResponse (Push.Response 200 (Some (Push.JObject payloadWithoutMetrics)))))
            eq_refl))).
  reflexivity.
Defined.

(** ** The log buffer between two starts *)

Lemma pull_step_logs (w : Pull.world) (e : Pull.event) :
  Pull.isClick e = false ->
  activityLogs (Pull.step w e) = activityLogs w
  \/ exists data now, activityLogs (Pull.step w e) = activityLogs w ++ [logEntry (data, now)].
Proof.
  intros He.
  destruct e as [| c | c data now | c type | c | r1 r2 r3];
    try discriminate He; cbn [Pull.step]; unfold dispatch.
  - destruct (isOpen c w); now left.
  - destruct (isOpen c w); [right; now exists data, now | now left].
  - destruct (String.eqb type "end"); [| now left].
    destruct (isOpen c w); now left.
  - destruct (isOpen c w); now left.
  - destruct (inflight w); [now left |]. left. apply pull_resume_frame.
Qed.

Lemma push_step_logs (w : Push.world) (e : Push.event) :
  Push.isClick e = false ->
  activityLogs (Push.step w e) = activityLogs w
  \/ exists data now, activityLogs (Push.step w e) = activityLogs w ++ [logEntry (data, now)].
Proof.
  intros He.
  destruct e as [| c | c data now | c type | c | r];
    try discriminate He; cbn [Push.step]; unfold dispatch; try (now left).
  - destruct (isOpen c w); [right; now exists data, now | now left].
  - destruct (isOpen c w); now left.
  - destruct (inflight w); [now left |]. left. apply push_resume_frame.
Qed.

(** Between two starts the log buffer only grows at its end: over any
    sequence of events without a click (messages, stream errors, end
    events, answers to requests, in any order) the buffer it started with
    is still there, unchanged, as a prefix; this holds in both variants. *)
Theorem logs_only_grow_between_starts :
  (forall (evs : list Pull.event) (w : Pull.world),
      forallb (fun e => negb (Pull.isClick e)) evs = true ->
      exists rest, activityLogs (Pull.run evs w) = activityLogs w ++ rest)
  /\ (forall (evs : list Push.event) (w : Push.world),
         forallb (fun e => negb (Push.isClick e)) evs = true ->
         exists rest, activityLogs (Push.run evs w) = activityLogs w ++ rest).
Proof.
  split.
  - induction evs as [| e evs IH]; intros w H; cbn [Pull.run fold_left].
    + exists []. now rewrite app_nil_r.
    + cbn [forallb] in H. apply andb_true_iff in H as [He H].
      apply negb_true_iff in He.
      destruct (IH (Pull.step w e) H) as [rest Hrest].
      unfold Pull.run in Hrest. rewrite Hrest.
      destruct (pull_step_logs w e He) as [-> | (d & t & ->)].
      * now exists rest.
      * exists ([logEntry (d, t)] ++ rest). now rewrite app_assoc.
  - induction evs as [| e evs IH]; intros w H; cbn [Push.run fold_left].
    + exists []. now rewrite app_nil_r.
    + cbn [forallb] in H. apply andb_true_iff in H as [He H].
      apply negb_true_iff in He.
      destruct (IH (Push.step w e) H) as [rest Hrest].
      unfold Push.run in Hrest. rewrite Hrest.
      destruct (push_step_logs w e He) as [-> | (d & t & ->)].
      * now exists rest.
      * exists ([logEntry (d, t)] ++ rest). now rewrite app_assoc.
Qed.

Lemma logs_only_grow_between_starts_witness :
  exists rest,
    activityLogs
      (Pull.run [Pull.StreamMessage 0 "late" "10:00:09"; Pull.StreamError 0;
                 Pull.DashboardResponses Pull.NetworkError Pull.NetworkError
                                         Pull.NetworkError]
                staleDashboard)
    = activityLogs staleDashboard ++ rest.
Proof.
  apply (proj1 logs_only_grow_between_starts
           [Pull.StreamMessage 0 "late" "10:00:09"; Pull.StreamError 0;
            Pull.DashboardResponses Pull.NetworkError Pull.NetworkError
                                    Pull.NetworkError]
           staleDashboard eq_refl).
Defined.

(** ** What ends a run, and what does not *)

Lemma pull_step_keeps_running (w : Pull.world) (e : Pull.event) :
  Pull.isTerminal e = false -> isRunning w = true ->
  isRunning (Pull.step w e) = true
  /\ open_sources (Pull.step w e) = open_sources w
  /\ next_source (Pull.step w e) = next_source w.
Proof.
  intros He Hrun.
  destruct e as [| c | c data now | c type | c | r1 r2 r3];
    try discriminate He; cbn [Pull.step]; unfold dispatch.
  - rewrite (button_disabled _ w Hrun). now repeat split.
  - destruct (isOpen c w); now repeat split.
  - destruct (isOpen c w); now repeat split.
  - cbn [Pull.isTerminal] in He. rewrite He. now repeat split.
  - destruct (inflight w); [now repeat split |].
    destruct (pull_resume_frame r1 r2 r3 w) as (_ & H2 & H3 & H4).
    rewrite H2, H3, H4. now repeat split.
Qed.

Lemma push_step_keeps_running (w : Push.world) (e : Push.event) :
  Push.isError e = false -> isRunning w = true ->
  isRunning (Push.step w e) = true
  /\ open_sources (Push.step w e) = open_sources w
  /\ next_source (Push.step w e) = next_source w.
Proof.
  intros He Hrun.
  destruct e as [| c | c data now | c type | c | r];
    try discriminate He; cbn [Push.step]; unfold dispatch;
    try (now repeat split).
  - rewrite (button_disabled _ w Hrun). now repeat split.
  - destruct (isOpen c w); now repeat split.
  - destruct (inflight w); [now repeat split |].
    destruct (push_resume_frame r w) as (_ & H2 & H3 & H4).
    rewrite H2, H3, H4. now repeat split.
Qed.

(** In the pull variant a run stays Running, on the same connection, until
    the stream reports an error or delivers the end event: no click, message,
    other named event or answer to a request lowers the flag or touches the
    connection. *)
Theorem pull_run_lasts_until_terminal_event :
  forall (evs : list Pull.event) (w : Pull.world),
    forallb (fun e => negb (Pull.isTerminal e)) evs = true ->
    isRunning w = true ->
    isRunning (Pull.run evs w) = true
    /\ open_sources (Pull.run evs w) = open_sources w
    /\ next_source (Pull.run evs w) = next_source w.
Proof.
  induction evs as [| e evs IH]; intros w H Hrun; cbn [Pull.run fold_left].
  - now repeat split.
  - cbn [forallb] in H. apply andb_true_iff in H as [He H].
    apply negb_true_iff in He.
    destruct (pull_step_keeps_running w e He Hrun) as (H1 & H2 & H3).
    destruct (IH (Pull.step w e) H H1) as (G1 & G2 & G3).
    unfold Pull.run in *. rewrite G1, G2, G3. now repeat split.
Qed.

Lemma pull_run_lasts_until_terminal_event_witness :
  isRunning
    (Pull.run [Pull.StreamOpen 0; Pull.Click; Pull.StreamNamed 0 "progress";
               Pull.DashboardResponses Pull.NetworkError Pull.NetworkError
                                       Pull.NetworkError]
              (Pull.run [Pull.Click] Pull.init))
  = true.
Proof.
  apply (pull_run_lasts_until_terminal_event
           [Pull.StreamOpen 0; Pull.Click; Pull.StreamNamed 0 "progress";
            Pull.DashboardResponses Pull.NetworkError Pull.NetworkError
                                    Pull.NetworkError]
           (Pull.run [Pull.Click] Pull.init) eq_refl eq_refl).
Defined.

(** In the push variant only a stream error ends a run: neither the end
    event nor the arrival of the [/run] payload lowers [isRunning], so until
    the stream fails the Run button stays disabled. *)
Theorem push_run_lasts_until_stream_error :
  forall (evs : list Push.event) (w : Push.world),
    forallb (fun e => negb (Push.isError e)) evs = true ->
    isRunning w = true ->
    isRunning (Push.run evs w) = true
    /\ open_sources (Push.run evs w) = open_sources w
    /\ disabled (runButton (Push.run evs w)) = true.
Proof.
  assert (G : forall (evs : list Push.event) (w : Push.world),
             forallb (fun e => negb (Push.isError e)) evs = true ->
             isRunning w = true ->
             isRunning (Push.run evs w) = true
             /\ open_sources (Push.run evs w) = open_sources w).
  { induction evs as [| e evs IH]; intros w H Hrun; cbn [Push.run fold_left].
    - now split.
    - cbn [forallb] in H. apply andb_true_iff in H as [He H].
      apply negb_true_iff in He.
      destruct (push_step_keeps_running w e He Hrun) as (H1 & H2 & _).
      destruct (IH (Push.step w e) H H1) as (G1 & G2).
      unfold Push.run in *. rewrite G1, G2. now split. }
  intros evs w H Hrun. destruct (G evs w H Hrun) as [G1 G2].
  repeat split; assumption.
Qed.

Lemma push_run_lasts_until_stream_error_witness :
  disabled
    (runButton
       (Push.run [Push.StreamNamed 0 "end";
                  Push.RunResponse (Push.Response 200 (Some (Push.JObject payloadWithoutMetrics)));
                  Push.Click]
                 runningPush))
  = true.
Proof.
  apply (push_run_lasts_until_stream_error
           [Push.StreamNamed 0 "end";
            Push.RunResponse (Push.Response 200 (Some (Push.JObject payloadWithoutMetrics)));
            Push.Click]
           runningPush eq_refl eq_refl).
Defined.

Lemma consistent_not_open {Store : Type} (c : nat) (w : world Store) :
  consistent w ->
  isRunning w = false \/ c <> pred (next_source w) ->
  isOpen c w = false.
Proof.
  intros [Ho _] H. destruct (isOpen c w) eqn:Hopen; [| reflexivity].
  apply isOpen_In in Hopen. rewrite Ho in Hopen.
  destruct (isRunning w); cbn in Hopen.
  - destruct H as [H | H]; [discriminate H |].
    destruct Hopen as [E | []]. now symmetry in E.
  - contradiction.
Qed.

(** Whatever has happened before, a stream event has an effect only if a
    run is in progress and the event comes from the EventSource that run
    opened: events of a stream that was closed, in either variant, change
    nothing at all. *)
Theorem closed_streams_are_inert :
  (forall (evs : list Pull.event) (e : Pull.event) (c : nat),
      let w := Pull.run evs Pull.init in
      Pull.source e = Some c ->
      isRunning w = false \/ c <> pred (next_source w) ->
      Pull.step w e = w)
  /\ (forall (evs : list Push.event) (e : Push.event) (c : nat),
         let w := Push.run evs Push.init in
         Push.source e = Some c ->
         isRunning w = false \/ c <> pred (next_source w) ->
         Push.step w e = w).
Proof.
  split.
  - intros evs e c w Hsrc H.
    assert (Hc : consistent w)
      by (now apply pull_run_consistent; apply pull_init_consistent).
    destruct e as [| c' | c' data now | c' type | c' | r1 r2 r3];
      try discriminate Hsrc; injection Hsrc as ->;
      cbn [Pull.step]; unfold dispatch;
      rewrite (consistent_not_open c w Hc H); try reflexivity.
    now destruct (String.eqb type "end").
  - intros evs e c w Hsrc H.
    assert (Hc : consistent w)
      by (apply push_run_consistent, push_init_consistent).
    destruct e as [| c' | c' data now | c' type | c' | r];
      try discriminate Hsrc; injection Hsrc as ->;
      cbn [Push.step]; unfold dispatch;
      try rewrite (consistent_not_open c w Hc H); reflexivity.
Qed.

Lemma closed_streams_are_inert_witness :
  Pull.step staleDashboard (Pull.StreamMessage 0 "too late" "10:01:00")
  = staleDashboard.
Proof.
  apply (proj1 closed_streams_are_inert
           [Pull.DashboardResponses
              (Pull.Response 200 (Some (Pull.JArray [widget 5 10])))
              (Pull.Response 200 (Some (Pull.JArray [])))
              (Pull.Response 200 (Some (Pull.JArray [lateDelivery])));
            Pull.Click;
            Pull.StreamMessage 0 "Placing order PO-1001" "10:00:00";
            Pull.StreamNamed 0 "end"]
           (Pull.StreamMessage 0 "too late" "10:01:00") 0 eq_refl).
  left. reflexivity.
Defined.

(** In every state the component can reach, in both variants, the Run
    button is disabled exactly while a stream connection is open, and its
    caption says so. *)
Theorem button_disabled_while_connected :
  (forall evs : list Pull.event,
      let w := Pull.run evs Pull.init in
      (disabled (runButton w) = true <-> exists c, open_sources w = [c])
      /\ (caption (runButton w) = "Running..." <-> exists c, open_sources w = [c]))
  /\ (forall evs : list Push.event,
         let w := Push.run evs Push.init in
         (disabled (runButton w) = true <-> exists c, open_sources w = [c])
         /\ (caption (runButton w) = "Running..." <-> exists c, open_sources w = [c])).
Proof.
  assert (G : forall (Store : Type) (w : world Store),
             consistent w ->
             (disabled (runButton w) = true <-> exists c, open_sources w = [c])
             /\ (caption (runButton w) = "Running..." <-> exists c, open_sources w = [c])).
  { intros Store w [Ho _]. unfold runButton. cbn [disabled caption].
    rewrite Ho. destruct (isRunning w); split; split; intros H;
      try reflexivity; try discriminate H.
    - now exists (pred (next_source w)).
    - now exists (pred (next_source w)).
    - destruct H as [c H]. discriminate H.
    - destruct H as [c H]. discriminate H. }
  split; intros evs w; apply G.
  - now apply pull_run_consistent; apply pull_init_consistent.
  - apply push_run_consistent, push_init_consistent.
Qed.

(** ** Keeping the books *)

Lemma count_snoc (p : effect -> bool) (t : list effect) (e : effect) :
  List.length (filter p (t ++ [e]))
  = List.length (filter p t) + (if p e then 1 else 0).
Proof.
  rewrite filter_app, length_app. cbn [filter]. destruct (p e); reflexivity.
Qed.

(** Counts the calls appended to a trace. *)
Ltac count_calls :=
  unfold requests, sets, loadFailures, opened, closed in *;
  repeat rewrite count_snoc;
  cbn [String.eqb Ascii.eqb Bool.eqb List.length Nat.add] in *.

Lemma pull_step_books (w : Pull.world) (e : Pull.event) :
  consistent w -> pull_books w -> pull_books (Pull.step w e).
Proof.
  intros Hc Hb.
  destruct e as [| c | c data now | c type | c | r1 r2 r3]; cbn [Pull.step];
    unfold button, dispatch.
  - destruct (isRunning w) eqn:Hrun; [assumption |].
    destruct Hc as [Ho _]. rewrite Hrun in Ho.
    destruct w as [st logs running opn nxt infl tr]. unfold pull_books in *.
    cbn [open_sources inflight trace next_source] in *. subst opn.
    run_calls. count_calls. lia.
  - destruct (isOpen c w); [| assumption].
    destruct w as [st logs running opn nxt infl tr]. unfold pull_books in *.
    cbn [open_sources inflight trace next_source] in *.
    run_calls. count_calls. lia.
  - destruct (isOpen c w); [| assumption].
    destruct w as [st logs running opn nxt infl tr]. unfold pull_books in *.
    cbn [open_sources inflight trace next_source] in *.
    run_calls. count_calls. lia.
  - destruct (String.eqb type "end"); [| assumption].
    destruct (isOpen c w) eqn:Hopen; [| assumption].
    destruct (consistent_open c w Hc Hopen) as [_ Hone].
    destruct w as [st logs running opn nxt infl tr]. unfold pull_books in *.
    cbn [open_sources inflight trace next_source] in *. subst opn.
    run_calls. rewrite remove_single. count_calls. lia.
  - destruct (isOpen c w) eqn:Hopen; [| assumption].
    destruct (consistent_open c w Hc Hopen) as [_ Hone].
    destruct w as [st logs running opn nxt infl tr]. unfold pull_books in *.
    cbn [open_sources inflight trace next_source] in *. subst opn.
    run_calls. rewrite remove_single. count_calls. lia.
  - destruct (inflight w) as [| n] eqn:Hn; [assumption |].
    destruct w as [st logs running opn nxt infl tr]. unfold pull_books in *.
    cbn [open_sources inflight trace next_source] in *. subst infl.
    destruct r1 as [| s1 [b1 |]], r2 as [| s2 [b2 |]], r3 as [| s3 [b3 |]];
      run_calls; count_calls; lia.
Qed.

Lemma pull_run_books (evs : list Pull.event) :
  forall w : Pull.world,
    consistent w -> fetches_settled (trace w) = true -> pull_books w ->
    pull_books (Pull.run evs w).
Proof.
  induction evs as [| e evs IH]; intros w Hc Hf Hb; cbn [Pull.run fold_left].
  - assumption.
  - destruct (pull_step_consistent w e Hc Hf) as [Hc' Hf'].
    apply (IH _ Hc' Hf'). now apply pull_step_books.
Qed.

Lemma pull_init_books : pull_books Pull.init.
Proof. unfold pull_books. cbn. repeat split. Qed.

Lemma push_step_books (w : Push.world) (e : Push.event) :
  consistent w -> push_books w -> push_books (Push.step w e).
Proof.
  intros Hc Hb.
  destruct e as [| c | c data now | c type | c | r]; cbn [Push.step];
    unfold button, dispatch; try assumption.
  - destruct (isRunning w) eqn:Hrun; [assumption |].
    destruct Hc as [Ho _]. rewrite Hrun in Ho.
    destruct w as [st logs running opn nxt infl tr]. unfold push_books in *.
    cbn [open_sources inflight trace next_source] in *. subst opn.
    run_calls. count_calls. lia.
  - destruct (isOpen c w); [| assumption].
    destruct w as [st logs running opn nxt infl tr]. unfold push_books in *.
    cbn [open_sources inflight trace next_source] in *.
    run_calls. count_calls. lia.
  - destruct (isOpen c w) eqn:Hopen; [| assumption].
    destruct (consistent_open c w Hc Hopen) as [_ Hone].
    destruct w as [st logs running opn nxt infl tr]. unfold push_books in *.
    cbn [open_sources inflight trace next_source] in *. subst opn.
    run_calls. rewrite remove_single. count_calls. lia.
  - destruct (inflight w) as [| n] eqn:Hn; [assumption |].
    destruct w as [st logs running opn nxt infl tr]. unfold push_books in *.
    cbn [open_sources inflight trace next_source] in *. subst infl.
    destruct r as [| s [[| | fields] |]]; run_calls; count_calls; lia.
Qed.

Lemma push_run_books (evs : list Push.event) :
  forall w : Push.world, consistent w -> push_books w -> push_books (Push.run evs w).
Proof.
  induction evs as [| e evs IH]; intros w Hc Hb; cbn [Push.run fold_left].
  - assumption.
  - apply IH; [now apply push_step_consistent | now apply push_step_books].
Qed.

Lemma push_init_books : push_books Push.init.
Proof. unfold push_books. cbn. repeat split. lia. Qed.

(** Whatever the event loop delivers to the pull variant, every call of
    [fetchDashboardData] is accounted for: it is still in flight, or it has
    set the three read models, or it has logged one load failure.  The three
    requests are always issued together and the three setters always run
    together; and the calls made are the one on mount plus exactly one per
    stream that was closed. *)
Theorem pull_every_reconciliation_is_accounted_for :
  forall evs : list Pull.event,
    let w := Pull.run evs Pull.init in
    let t := trace w in
    requests "http://localhost:8000/inventory" t
    = inflight w + sets "inventory" t + loadFailures t
    /\ requests "http://localhost:8000/purchase-orders" t
       = requests "http://localhost:8000/inventory" t
    /\ requests "http://localhost:8000/sla-violations" t
       = requests "http://localhost:8000/inventory" t
    /\ sets "purchaseOrders" t = sets "inventory" t
    /\ sets "slaViolations" t = sets "inventory" t
    /\ requests "http://localhost:8000/inventory" t = S (closed t).
Proof.
  intros evs w t.
  assert (Hb : pull_books w).
  { apply pull_run_books; try apply pull_init_consistent. apply pull_init_books. }
  destruct Hb as (H1 & H2 & H3 & H4 & H5 & H6 & _).
  repeat split; assumption.
Qed.

(** Whatever the event loop delivers to the push variant, [GET /run] has
    been requested exactly once per EventSource created, the five setters
    have always run together, and no more answers have been applied or are
    awaited than requests were made. *)
Theorem push_one_request_per_start :
  forall evs : list Push.event,
    let w := Push.run evs Push.init in
    let t := trace w in
    requests "http://localhost:8000/run" t = opened t
    /\ inflight w + sets "inventory" t <= requests "http://localhost:8000/run" t
    /\ sets "purchaseOrders" t = sets "inventory" t
    /\ sets "restockPlan" t = sets "inventory" t
    /\ sets "slaViolations" t = sets "inventory" t
    /\ sets "metrics" t = sets "inventory" t.
Proof.
  intros evs w t.
  assert (Hb : push_books w).
  { apply push_run_books; [apply push_init_consistent | apply push_init_books]. }
  destruct Hb as (H1 & H2 & H3 & H4 & H5 & H6 & _).
  repeat split; assumption.
Qed.

(** No connection leaks, in either variant: of the EventSources created so
    far, which are numbered in order of creation, each has been closed
    exactly once or is the one still open. *)
Theorem connections_never_leak :
  (forall evs : list Pull.event,
      let w := Pull.run evs Pull.init in
      opened (trace w) = closed (trace w) + List.length (open_sources w)
      /\ next_source w = opened (trace w))
  /\ (forall evs : list Push.event,
         let w := Push.run evs Push.init in
         opened (trace w) = closed (trace w) + List.length (open_sources w)
         /\ next_source w = opened (trace w)).
Proof.
  split; intros evs w.
  - assert (Hb : pull_books w).
    { apply pull_run_books; try apply pull_init_consistent. apply pull_init_books. }
    destruct Hb as (_ & _ & _ & _ & _ & _ & H7 & H8). now split.
  - assert (Hb : push_books w).
    { apply push_run_books; [apply push_init_consistent | apply push_init_books]. }
    destruct Hb as (_ & _ & _ & _ & _ & _ & H7 & H8). now split.
Qed.

(** ** What [fetchDashboardData] does with its answers *)

(** [fetchDashboardData] is all or nothing, and it never looks at an HTTP
    status.  If all three answers decode, each slot takes its decoded body
    (the empty array for a falsy one) and nothing is logged, whatever the
    status codes; if one, two or three fail, no slot changes and exactly one
    error is logged, however many failed. *)
Theorem fetchDashboardData_all_or_nothing :
  forall (w : Pull.world) (r1 : Pull.response InventoryItem.t)
         (r2 : Pull.response PurchaseOrder.t) (r3 : Pull.response SLAViolation.t),
    let w' := Pull.fetchDashboardData_resume r1 r2 r3 w in
    (failures r1 r2 r3 = 0 ->
     (exists s1 d1 s2 d2 s3 d3,
         r1 = Pull.Response s1 (Some d1) /\ r2 = Pull.Response s2 (Some d2)
         /\ r3 = Pull.Response s3 (Some d3)
         /\ store w' = Pull.mkStore (Pull.orEmpty d1) (Pull.orEmpty d2) (Pull.orEmpty d3))
     /\ consoleErrors (trace w') = consoleErrors (trace w))
    /\ (failures r1 r2 r3 <> 0 ->
        store w' = store w
        /\ consoleErrors (trace w') = S (consoleErrors (trace w))).
Proof.
  intros w r1 r2 r3 w'. subst w'. split; intros H.
  - destruct r1 as [| s1 [d1 |]], r2 as [| s2 [d2 |]], r3 as [| s3 [d3 |]];
      try discriminate H.
    split.
    + exists s1, d1, s2, d2, s3, d3. repeat split.
    + destruct w as [st logs running opn nxt infl tr]. run_calls.
      unfold consoleErrors. repeat rewrite count_snoc. cbn. lia.
  - assert (Hr : rejected r1 || rejected r2 || rejected r3 = true).
    { unfold failures in H.
      destruct (rejected r1), (rejected r2), (rejected r3);
        try reflexivity. now contradiction H. }
    rewrite (pull_resume_rejected r1 r2 r3 w Hr). split; [reflexivity |].
    apply consoleErrors_snoc.
Qed.

Lemma fetchDashboardData_all_or_nothing_witness :
  consoleErrors
    (trace (Pull.fetchDashboardData_resume
              Pull.NetworkError (Pull.Response 404 None) Pull.NetworkError
              staleDashboard))
  = S (consoleErrors (trace staleDashboard)).
Proof.
  apply (proj2 (fetchDashboardData_all_or_nothing staleDashboard
                  Pull.NetworkError (Pull.Response 404 None) Pull.NetworkError)).
  discriminate.
Defined.

(** ** What gets into the log buffer *)

Lemma trimStart_clean (s : string) : startsClean (trimStart s) = true.
Proof.
  induction s as [| c s IH]; cbn [trimStart]; [reflexivity |].
  destruct (isWhiteSpace c) eqn:Hc; [exact IH |].
  cbn [startsClean]. now rewrite Hc.
Qed.

Lemma trimStart_fixed (s : string) : startsClean s = true -> trimStart s = s.
Proof.
  destruct s as [| c s]; cbn [startsClean trimStart]; [reflexivity |].
  intros H. apply negb_true_iff in H. now rewrite H.
Qed.

Lemma trimEnd_clean (s : string) :
  startsClean s = true -> startsClean (trimEnd s) = true.
Proof.
  destruct s as [| c s]; cbn [startsClean trimEnd]; [reflexivity |].
  intros H. apply negb_true_iff in H.
  destruct (trimEnd s); [rewrite H |]; cbn [startsClean]; now rewrite H.
Qed.

Lemma trimEnd_fixed (s : string) : trimEnd (trimEnd s) = trimEnd s.
Proof.
  induction s as [| c s IH]; cbn [trimEnd]; [reflexivity |].
  destruct (trimEnd s) as [| d t] eqn:Ht.
  - destruct (isWhiteSpace c) eqn:Hc; cbn [trimEnd]; [reflexivity |].
    now rewrite Hc.
  - cbn [trimEnd]. cbn [trimEnd] in IH. now rewrite IH.
Qed.

Lemma trim_fixed (s : string) :
  trim (trim s) = trim s /\ startsClean (trim s) = true /\ trimEnd (trim s) = trim s.
Proof.
  unfold trim.
  assert (Hc : startsClean (trimEnd (trimStart s)) = true)
    by apply trimEnd_clean, trimStart_clean.
  rewrite (trimStart_fixed _ Hc). repeat split; try apply trimEnd_fixed. exact Hc.
Qed.

Lemma trimStart_blank (s : string) : allWhiteSpace s = true -> trimStart s = "".
Proof.
  induction s as [| c s IH]; cbn [allWhiteSpace trimStart]; [reflexivity |].
  intros H. apply andb_true_iff in H as [Hc Hs]. rewrite Hc. now apply IH.
Qed.

Lemma pull_step_trimmed (w : Pull.world) (e : Pull.event) :
  Forall (fun entry => trim (message entry) = message entry) (activityLogs w) ->
  Forall (fun entry => trim (message entry) = message entry)
         (activityLogs (Pull.step w e)).
Proof.
  intros H. destruct (Pull.isClick e) eqn:He.
  - destruct e; try discriminate He. cbn [Pull.step]. unfold button.
    destruct (isRunning w); [assumption | constructor].
  - destruct (pull_step_logs w e He) as [-> | (d & t & ->)]; [assumption |].
    apply Forall_app. split; [assumption |].
    constructor; [apply trim_fixed | constructor].
Qed.

Lemma push_step_trimmed (w : Push.world) (e : Push.event) :
  Forall (fun entry => trim (message entry) = message entry) (activityLogs w) ->
  Forall (fun entry => trim (message entry) = message entry)
         (activityLogs (Push.step w e)).
Proof.
  intros H. destruct (Push.isClick e) eqn:He.
  - destruct e; try discriminate He. cbn [Push.step]. unfold button.
    destruct (isRunning w); [assumption | constructor].
  - destruct (push_step_logs w e He) as [-> | (d & t & ->)]; [assumption |].
    apply Forall_app. split; [assumption |].
    constructor; [apply trim_fixed | constructor].
Qed.

(** Whatever the event loop delivers, in both variants every entry of the
    log buffer carries a trimmed message: trimming it again changes
    nothing, and it does not begin with white space. *)
Theorem logged_messages_are_trimmed :
  (forall evs : list Pull.event,
      Forall (fun entry => trim (message entry) = message entry
                           /\ startsClean (message entry) = true)
             (activityLogs (Pull.run evs Pull.init)))
  /\ (forall evs : list Push.event,
         Forall (fun entry => trim (message entry) = message entry
                              /\ startsClean (message entry) = true)
                (activityLogs (Push.run evs Push.init))).
Proof.
  assert (G : forall logs : list StreamLog,
             Forall (fun entry => trim (message entry) = message entry) logs ->
             Forall (fun entry => trim (message entry) = message entry
                                  /\ startsClean (message entry) = true) logs).
  { intros logs H. eapply Forall_impl; [| exact H]. cbn beta.
    intros entry E. split; [exact E |]. rewrite <- E. apply trim_fixed. }
  split; intros evs; apply G.
  - generalize Pull.init (Forall_nil (fun entry : StreamLog =>
                                        trim (message entry) = message entry)
                          : Forall _ (activityLogs Pull.init)).
    induction evs as [| e evs IH]; intros w H; cbn [Pull.run fold_left].
    + exact H.
    + apply IH. now apply pull_step_trimmed.
  - generalize Push.init (Forall_nil (fun entry : StreamLog =>
                                        trim (message entry) = message entry)
                          : Forall _ (activityLogs Push.init)).
    induction evs as [| e evs IH]; intros w H; cbn [Push.run fold_left].
    + exact H.
    + apply IH. now apply push_step_trimmed.
Qed.

(** A message made of white space only is not skipped: delivered by the
    open stream it appends one entry like any other, whose text is empty;
    this holds in both variants. *)
Theorem blank_message_is_logged_empty :
  (forall (w : Pull.world) (c : nat) (data now : string),
      isOpen c w = true -> allWhiteSpace data = true ->
      activityLogs (Pull.step w (Pull.StreamMessage c data now))
      = activityLogs w ++ [mkStreamLog "" now])
  /\ (forall (w : Push.world) (c : nat) (data now : string),
         isOpen c w = true -> allWhiteSpace data = true ->
         activityLogs (Push.step w (Push.StreamMessage c data now))
         = activityLogs w ++ [mkStreamLog "" now]).
Proof.
  split; intros w c data now Hopen Hblank.
  - cbn [Pull.step]. unfold dispatch. rewrite Hopen, onmessage_logs.
    unfold logEntry, trim. cbn [fst snd]. now rewrite (trimStart_blank data Hblank).
  - cbn [Push.step]. unfold dispatch. rewrite Hopen, onmessage_logs.
    unfold logEntry, trim. cbn [fst snd]. now rewrite (trimStart_blank data Hblank).
Qed.

Lemma blank_message_is_logged_empty_witness :
  activityLogs (Push.step runningPush (Push.StreamMessage 0 "   " "10:00:03"))
  = [mkStreamLog "" "10:00:03"].
Proof.
  apply (proj2 blank_message_is_logged_empty runningPush 0 "   " "10:00:03"
           eq_refl eq_refl).
Defined.

(** ** What the page shows *)

Lemma lowStock_rows (items : list InventoryItem.t) :
  filter lowStockBadge (map inventoryRow items)
  = map inventoryRow (filter Pull.isLowStock items).
Proof.
  induction items as [| item rest IH]; cbn [map filter]; [reflexivity |].
  unfold Pull.isLowStock at 1. cbn [inventoryRow lowStockBadge].
  destruct (InventoryItem.stock_level item <? InventoryItem.reorder_threshold item)%Z;
    cbn [map]; now rewrite IH.
Qed.

(** On the pull page the summary cards cannot disagree with the tables
    below them: the Low Stock card counts exactly the inventory rows that
    carry the Low Stock badge, which are exactly the rows tinted red; the
    purchase-order card counts the order rows; the SLA card counts the
    violation rows, and the SLA table is left out exactly when that count is
    zero. *)
Theorem pull_cards_agree_with_tables :
  forall w : Pull.world,
    let v := Pull.render w in
    Pull.cardLowStockItems v = List.length (filter lowStockBadge (Pull.viewInventory v))
    /\ Forall (fun row => lowStockBadge row = true <-> inventoryClass row = "bg-red-50")
              (Pull.viewInventory v)
    /\ List.length (Pull.viewInventory v) = List.length (Pull.inventory (store w))
    /\ Pull.cardTotalPurchaseOrders v = List.length (Pull.viewOrders v)
    /\ Pull.cardSlaViolations v
       = match Pull.viewSla v with
         | None => 0
         | Some rows => List.length rows
         end
    /\ (Pull.viewSla v = None <-> Pull.cardSlaViolations v = 0).
Proof.
  intros w v. subst v. unfold Pull.render.
  cbn [Pull.cardLowStockItems Pull.viewInventory Pull.cardTotalPurchaseOrders
       Pull.viewOrders Pull.cardSlaViolations Pull.viewSla].
  repeat apply conj.
  - rewrite lowStock_rows, length_map. reflexivity.
  - apply Forall_forall. intros row Hrow. apply in_map_iff in Hrow as [item [<- _]].
    cbn [inventoryRow lowStockBadge inventoryClass].
    destruct (InventoryItem.stock_level item <? InventoryItem.reorder_threshold item)%Z;
      split; intros H; try reflexivity; discriminate H.
  - apply length_map.
  - unfold Pull.totalPurchaseOrders. now rewrite length_map.
  - unfold Pull.slaViolationsCount, slaCard.
    destruct (Pull.slaViolations (store w)); cbn [List.length]; [reflexivity |].
    now rewrite length_map.
  - unfold Pull.slaViolationsCount, slaCard.
    destruct (Pull.slaViolations (store w)); cbn [List.length]; intros H;
      try reflexivity; discriminate H.
  - unfold Pull.slaViolationsCount, slaCard.
    destruct (Pull.slaViolations (store w)); cbn [List.length]; intros H;
      try reflexivity; discriminate H.
Qed.

Lemma mapi_from_length {A B : Type} (f : A -> nat -> B) (l : list A) :
  forall k, List.length (mapi_from k f l) = List.length l.
Proof.
  induction l as [| x l IH]; intros k; cbn [mapi_from List.length]; [reflexivity |].
  now rewrite IH.
Qed.

Lemma mapi_from_nth {A B : Type} (f : A -> nat -> B) (l : list A) :
  forall k i,
    nth_error (mapi_from k f l) i = option_map (fun x => f x (k + i)) (nth_error l i).
Proof.
  induction l as [| x l IH]; intros k i; cbn [mapi_from].
  - now destruct i.
  - destruct i as [| i]; cbn [nth_error option_map].
    + now rewrite Nat.add_0_r.
    + rewrite IH. now rewrite Nat.add_succ_comm.
Qed.

Lemma logsPanel_lines (logs : list StreamLog) :
  match logs with
  | [] => logsPanel logs = NoLogsYet
  | _ :: _ =>
      exists lines,
        logsPanel logs = LogLines lines
        /\ List.length lines = List.length logs
        /\ forall i, nth_error lines i
                     = option_map (fun log => mkLogLine i (timestamp log) (message log))
                                  (nth_error logs i)
  end.
Proof.
  destruct logs as [| log rest]; [reflexivity |].
  unfold logsPanel. cbn [List.length].
  eexists. split; [reflexivity |]. split.
  - now rewrite mapi_from_length.
  - intros i. now rewrite mapi_from_nth.
Qed.

(** The log card follows the run: after a start that proceeds and N
    messages from its stream, the card shows the placeholder if N is zero
    and otherwise exactly N lines, the i-th keyed i and showing the i-th
    payload, trimmed, with the time it was received; this holds in both
    variants. *)
Theorem log_card_shows_the_run :
  (forall (w : Pull.world) (msgs : list (string * string)),
      isRunning w = false ->
      let c := next_source w in
      let w' := Pull.run (Pull.Click
                          :: map (fun m => Pull.StreamMessage c (fst m) (snd m)) msgs) w in
      match msgs with
      | [] => Pull.viewLogs (Pull.render w') = NoLogsYet
      | _ :: _ =>
          exists lines,
            Pull.viewLogs (Pull.render w') = LogLines lines
            /\ List.length lines = List.length msgs
            /\ forall i, nth_error lines i
                         = option_map (fun m => mkLogLine i (snd m) (trim (fst m)))
                                      (nth_error msgs i)
      end)
  /\ (forall (w : Push.world) (msgs : list (string * string)),
         isRunning w = false ->
         let c := next_source w in
         let w' := Push.run (Push.Click
                             :: map (fun m => Push.StreamMessage c (fst m) (snd m)) msgs) w in
         match msgs with
         | [] => logsPanel (activityLogs w') = NoLogsYet
         | _ :: _ =>
             exists lines,
               logsPanel (activityLogs w') = LogLines lines
               /\ List.length lines = List.length msgs
               /\ forall i, nth_error lines i
                            = option_map (fun m => mkLogLine i (snd m) (trim (fst m)))
                                         (nth_error msgs i)
         end).
Proof.
  assert (G : forall msgs : list (string * string),
             match msgs with
             | [] => logsPanel (map logEntry msgs) = NoLogsYet
             | _ :: _ =>
                 exists lines,
                   logsPanel (map logEntry msgs) = LogLines lines
                   /\ List.length lines = List.length msgs
                   /\ forall i, nth_error lines i
                                = option_map (fun m => mkLogLine i (snd m) (trim (fst m)))
                                             (nth_error msgs i)
             end).
  { intros msgs. pose proof (logsPanel_lines (map logEntry msgs)) as H.
    destruct msgs as [| m rest]; [exact H |]. cbn [map] in H |- *.
    destruct H as (lines & H1 & H2 & H3). exists lines.
    split; [exact H1 |]. split.
    - rewrite H2. cbn [List.length]. now rewrite length_map.
    - intros i. rewrite H3.
      change (logEntry m :: map logEntry rest) with (map logEntry (m :: rest)).
      rewrite nth_error_map. now destruct (nth_error (m :: rest) i). }
  split; intros w msgs Hrun c w'.
  - assert (E : activityLogs w' = map logEntry msgs).
    { subst w'. cbn [Pull.run fold_left Pull.step].
      rewrite (button_enabled _ w Hrun).
      fold (Pull.run (map (fun m => Pull.StreamMessage c (fst m) (snd m)) msgs)
                     (Pull.runSystem w)).
      now rewrite pull_messages by (now apply (isOpen_head c _ (open_sources w))). }
    unfold Pull.render. cbn [Pull.viewLogs]. rewrite E. apply G.
  - assert (E : activityLogs w' = map logEntry msgs).
    { subst w'. cbn [Push.run fold_left Push.step].
      rewrite (button_enabled _ w Hrun).
      fold (Push.run (map (fun m => Push.StreamMessage c (fst m) (snd m)) msgs)
                     (Push.runSystem w)).
      now rewrite push_messages by (now apply (isOpen_head c _ (open_sources w))). }
    rewrite E. apply G.
Qed.

Lemma log_card_shows_the_run_witness :
  exists lines,
    Pull.viewLogs
      (Pull.render
         (Pull.run [Pull.Click; Pull.StreamMessage 1 " Checking inventory levels... " "10:05:01"]
                   staleDashboard))
    = LogLines lines
    /\ List.length lines = 1
    /\ forall i, nth_error lines i
                 = option_map (fun m => mkLogLine i (snd m) (trim (fst m)))
                              (nth_error [(" Checking inventory levels... ", "10:05:01")] i).
Proof.
  apply (proj1 log_card_shows_the_run staleDashboard
           [(" Checking inventory levels... ", "10:05:01")] eq_refl).
Defined.

Lemma push_step_store (w : Push.world) (e : Push.event) :
  Push.isResponse e = false -> store (Push.step w e) = store w.
Proof.
  intros He.
  destruct e as [| c | c data now | c type | c | r];
    try discriminate He; cbn [Push.step]; unfold button, dispatch;
    try reflexivity.
  - destruct (isRunning w); reflexivity.
  - destruct (isOpen c w); reflexivity.
  - destruct (isOpen c w); reflexivity.
Qed.

Lemma push_render_defined (w : Push.world) :
  Push.render w <> None <->
  Push.inventory (store w) <> None
  /\ Push.purchaseOrders (store w) <> None
  /\ Push.slaViolations (store w) <> None.
Proof.
  unfold Push.render.
  destruct (Push.inventory (store w)), (Push.purchaseOrders (store w)),
           (Push.slaViolations (store w));
    split; try (intros (H1 & H2 & H3)); try (intros H); repeat split;
    try discriminate; try contradiction; try (now contradiction H);
    try (now contradiction H1); try (now contradiction H2);
    try (now contradiction H3).
Qed.

Lemma push_step_showable (w : Push.world) (e : Push.event) :
  Push.showable e = true -> Push.render w <> None ->
  Push.render (Push.step w e) <> None.
Proof.
  intros He Hw. destruct (Push.isResponse e) eqn:Hresp.
  - destruct e as [| c | c data now | c type | c | r]; try discriminate Hresp.
    cbn [Push.step]. destruct (inflight w); [assumption |].
    apply push_render_defined in Hw. apply push_render_defined.
    destruct r as [| s [[| | fields] |]]; try assumption; try discriminate He.
    cbn [Push.showable] in He. destruct w as [st logs running opn nxt infl tr].
    run_calls.
    destruct (Push.Payload.inventory_data fields),
             (Push.Payload.purchase_orders fields),
             (Push.Payload.sla_violations fields);
      try discriminate He; repeat split; discriminate.
  - apply push_render_defined in Hw. apply push_render_defined.
    now rewrite (push_step_store w e Hresp).
Qed.

(** The push page keeps rendering as long as every decoded [/run] answer is
    an object carrying [inventory_data], [purchase_orders] and
    [sla_violations]: whatever else happens, and whether or not
    [restock_plan] and [metrics] are present, no render throws. *)
Theorem push_page_renders_showable_answers :
  forall evs : list Push.event,
    forallb Push.showable evs = true ->
    exists v, Push.render (Push.run evs Push.init) = Some v.
Proof.
  intros evs H.
  assert (G : Push.render (Push.run evs Push.init) <> None).
  { assert (H0 : Push.render Push.init <> None) by discriminate.
    revert H H0. generalize Push.init.
    induction evs as [| e evs IH]; intros w H Hw; cbn [Push.run fold_left].
    - exact Hw.
    - cbn [forallb] in H. apply andb_true_iff in H as [He H].
      apply (IH _ H). now apply push_step_showable. }
  destruct (Push.render (Push.run evs Push.init)) as [v |].
  - now exists v.
  - now contradiction G.
Qed.

Lemma push_page_renders_showable_answers_witness :
  exists v,
    Push.render
      (Push.run [Push.Click;
                 Push.RunResponse (Push.Response 200 (Some (Push.JObject payloadWithoutMetrics)));
                 Push.StreamError 0]
                Push.init)
    = Some v.
Proof.
  apply (push_page_renders_showable_answers
           [Push.Click;
            Push.RunResponse (Push.Response 200 (Some (Push.JObject payloadWithoutMetrics)));
            Push.StreamError 0]
           eq_refl).
Defined.

(** A decoded [/run] answer that is a scalar, or an object lacking
    [inventory_data], [purchase_orders] or [sla_violations], is applied all
    the same, and from then on the push page throws on render: no click,
    stream event or stream error repairs it. *)
Theorem push_page_breaks_on_unshowable_answer :
  forall (w : Push.world) (r : Push.response) (evs : list Push.event),
    inflight w <> 0 ->
    Push.showable (Push.RunResponse r) = false ->
    forallb (fun e => negb (Push.isResponse e)) evs = true ->
    Push.render (Push.run (Push.RunResponse r :: evs) w) = None.
Proof.
  intros w r evs Hin Hr Hevs. cbn [Push.run fold_left].
  assert (H1 : Push.render (Push.step w (Push.RunResponse r)) = None).
  { cbn [Push.step]. destruct (inflight w) as [| n]; [now contradiction Hin |].
    destruct r as [| s [[| | fields] |]]; try discriminate Hr.
    - reflexivity.
    - cbn [Push.showable] in Hr. destruct w as [st logs running opn nxt infl tr].
      unfold Push.render. run_calls.
      destruct (Push.Payload.inventory_data fields),
               (Push.Payload.purchase_orders fields),
               (Push.Payload.sla_violations fields);
        try discriminate Hr; reflexivity. }
  revert H1. generalize (Push.step w (Push.RunResponse r)).
  induction evs as [| e evs IH]; intros w' H1; cbn [fold_left].
  - exact H1.
  - cbn [forallb] in Hevs. apply andb_true_iff in Hevs as [He Hevs].
    apply negb_true_iff in He. apply (IH Hevs).
    destruct (Push.render (Push.step w' e)) eqn:E; [| reflexivity].
    assert (G : Push.render (Push.step w' e) <> None) by (rewrite E; discriminate).
    apply push_render_defined in G. rewrite (push_step_store w' e He) in G.
    apply push_render_defined in G. now contradiction G.
Qed.

Lemma push_page_breaks_on_unshowable_answer_witness :
  Push.render
    (Push.run [Push.RunResponse
                 (Push.Response 200
                    (Some (Push.JObject
                             (Push.Payload.mk None (Some [order1001]) (Some [plan1001])
                                              (Some []) (Some [])))));
               Push.StreamError 0; Push.Click]
              runningPush)
  = None.
Proof.
  apply (push_page_breaks_on_unshowable_answer runningPush
           (Push.Response 200
              (Some (Push.JObject
                       (Push.Payload.mk None (Some [order1001]) (Some [plan1001])
                                        (Some []) (Some [])))))
           [Push.StreamError 0; Push.Click]).
  - discriminate.
  - reflexivity.
  - reflexivity.
Defined.

(** The push page stores [restock_plan] and [metrics] but never shows them:
    two [/run] answers that agree on the other three fields leave the same
    page. *)
Theorem push_page_ignores_plan_and_metrics :
  forall (w : Push.world) (s1 s2 : nat) (p q : Push.Payload.t),
    Push.Payload.inventory_data p = Push.Payload.inventory_data q ->
    Push.Payload.purchase_orders p = Push.Payload.purchase_orders q ->
    Push.Payload.sla_violations p = Push.Payload.sla_violations q ->
    Push.render (Push.runSystem_resume (Push.Response s1 (Some (Push.JObject p))) w)
    = Push.render (Push.runSystem_resume (Push.Response s2 (Some (Push.JObject q))) w).
Proof.
  intros [st logs running opn nxt infl tr] s1 s2 p q H1 H2 H3.
  unfold Push.render, runButton. run_calls. cbn [Push.inventory Push.purchaseOrders Push.slaViolations].
  now rewrite H1, H2, H3.
Qed.

Lemma push_page_ignores_plan_and_metrics_witness :
  Push.render
    (Push.runSystem_resume
       (Push.Response 200 (Some (Push.JObject payloadWithoutMetrics))) runningPush)
  = Push.render
      (Push.runSystem_resume
         (Push.Response 201
            (Some (Push.JObject
                     (Push.Payload.mk (Some [widget 60 10]) (Some [order1001]) None
                                      (Some []) (Some [])))))
         runningPush).
Proof.
  apply (push_page_ignores_plan_and_metrics runningPush 200 201
           payloadWithoutMetrics
           (Push.Payload.mk (Some [widget 60 10]) (Some [order1001]) None
                            (Some []) (Some []))
           eq_refl eq_refl eq_refl).
Defined.

(** [getStatusBadge] never conflates two statuses and never fails on an
    unknown one: different status strings give different badges; a status
    other than [pending], [fulfilled] and [cancelled] (in exactly this
    spelling) is shown verbatim and uncoloured, and only such statuses are
    uncoloured. *)
Theorem getStatusBadge_distinguishes_statuses :
  (forall s1 s2 : string, getStatusBadge s1 = getStatusBadge s2 -> s1 = s2)
  /\ (forall status : string,
         badgeClass (getStatusBadge status) = None <->
         status <> "pending" /\ status <> "fulfilled" /\ status <> "cancelled")
  /\ (forall status : string,
         badgeClass (getStatusBadge status) = None ->
         badgeText (getStatusBadge status) = status).
Proof.
  repeat apply conj.
  - intros s1 s2. unfold getStatusBadge.
    destruct (String.eqb_spec s1 "pending"), (String.eqb_spec s1 "fulfilled"),
             (String.eqb_spec s1 "cancelled"),
             (String.eqb_spec s2 "pending"), (String.eqb_spec s2 "fulfilled"),
             (String.eqb_spec s2 "cancelled");
      subst; intros H; try reflexivity; try discriminate H; try congruence.
  - intros status. unfold getStatusBadge.
    destruct (String.eqb_spec status "pending"), (String.eqb_spec status "fulfilled"),
             (String.eqb_spec status "cancelled");
      cbn [badgeClass]; split;
      try (intros (H1 & H2 & H3)); try (intros H); try reflexivity;
      try discriminate H; try (now repeat split);
      try (now contradiction H1); try (now contradiction H2);
      try (now contradiction H3).
  - intros status. unfold getStatusBadge.
    destruct (String.eqb status "pending"), (String.eqb status "fulfilled"),
             (String.eqb status "cancelled");
      cbn [badgeClass badgeText]; intros H; try discriminate H; reflexivity.
Qed.

Lemma getStatusBadge_distinguishes_statuses_witness :
  badgeText (orderStatus (orderRow order1002)) = "Pending"
  /\ badgeClass (orderStatus (orderRow order1002)) = None.
Proof.
  split; [| reflexivity].
  apply (proj2 (proj2 getStatusBadge_distinguishes_statuses) "Pending").
  reflexivity.
Defined.
